(** * Christmas To-Do API: the request handlers of [main.py]

    A shallow embedding of the FastAPI handlers of [src/main.py] over an
    explicit model of the document store, and the properties of the
    specification proved (or refuted) about them.

    Conventions.
    - A Python [str] is a [string]; one [ascii] stands for one character.
      The non-ASCII literals of the source are written as they are (their
      UTF-8 bytes); no property counts their length.
    - A naive [datetime] is the number of microseconds since [datetime.min],
      so [datetime.min] is [0] and no date-time is earlier.  The store keeps
      a date-time it is handed in whole milliseconds ([bson_datetime]).
    - A store record is the dict pymongo hands back.  Its [_id] entry, which
      every stored record has, is the field [_id] of [document]; the other
      entries are the finite map [fields].
    - The handlers run in a state-and-exception monad over [World]: the
      process-wide [db] handle (or [None]) and the log of the calls that
      reached the store.  A call on a connected store completes; a
      connection that fails in the middle of a call is outside the model,
      except for [list_collection_names], whose failure the diagnostics
      handler catches.
    - [datetime.utcnow()] is the argument [now] of the handlers that read the
      clock (each reads it at most once).
    - [bson.ObjectId] and [datetime.isoformat] are library code: the classes
      [ObjectIdLib] and [DatetimeLib] hold [ObjectId.is_valid], the
      constructor [ObjectId(...)], [str] on object ids and [isoformat], and
      every property is proved for all their instances. *)

From Stdlib Require Import ZArith NArith Ascii String List Permutation Lia.
From stdpp Require Import base option list gmap strings sorting pretty.

Open Scope string_scope.

(** ** Python values held by records and JSON bodies *)

Definition datetime := N.
Definition datetime_min : datetime := 0%N.

Inductive value :=
| VNone
| VBool (b : bool)
| VInt (n : Z)
| VStr (s : string)
| VDate (t : datetime).

#[global] Instance value_eq_dec : EqDecision value.
Proof. solve_decision. Defined.

(** [bool(v)] *)
Definition truthy (v : value) : bool :=
  match v with
  | VNone => false
  | VBool b => b
  | VInt n => negb (n =? 0)%Z
  | VStr s => negb (String.eqb s "")
  | VDate _ => true
  end.

(** [bool] is a subclass of [int]: both compare as integers. *)
Definition as_int (v : value) : option Z :=
  match v with
  | VBool b => Some (Z.b2z b)
  | VInt n => Some n
  | _ => None
  end.

(** [v < w]; [None] is the [TypeError] Python raises when the two operands
    are not ordered ([None] with anything, a [str] with a [datetime], ...). *)
Definition py_lt (v w : value) : option bool :=
  match v, w with
  | VStr a, VStr b => Some (String.ltb a b)
  | VDate a, VDate b => Some (a <? b)%N
  | _, _ =>
      match as_int v, as_int w with
      | Some a, Some b => Some (a <? b)%Z
      | _, _ => None
      end
  end.

(** What the store keeps of a date-time: BSON holds whole milliseconds, and
    pymongo drops the microseconds below ([microsecond // 1000]). *)
Definition bson_datetime (t : datetime) : datetime := (t / 1000 * 1000)%N.

(** A value of an update document as the store keeps it. *)
Definition bson_value (v : value) : value :=
  match v with
  | VDate t => VDate (bson_datetime t)
  | _ => v
  end.

(** [s[:n]] on a [str] *)
Fixpoint str_take (n : nat) (s : string) : string :=
  match n, s with
  | S n', String c s' => String c (str_take n' s')
  | _, _ => EmptyString
  end.
Arguments str_take : simpl never.

(** ** Exceptions and results *)

Inductive exn :=
| HTTPException (status_code : Z) (detail : string)
| TypeError (msg : string)
| StoreError (msg : string).

Inductive outcome (A : Type) :=
| Return (a : A)
| Raise (e : exn).
Arguments Return {A} a.
Arguments Raise {A} e.

#[global] Instance outcome_ret : MRet outcome := λ A a, Return a.
#[global] Instance outcome_bind : MBind outcome := λ A B f m,
  match m with
  | Return a => f a
  | Raise e => Raise e
  end.
#[global] Instance outcome_fmap : FMap outcome := λ A B f m,
  match m with
  | Return a => Return (f a)
  | Raise e => Raise e
  end.

(** ** [sorted(l, key=key, reverse=True)]

    Python's sort is stable, also with [reverse=True]: the result descends
    by key and elements with equal keys keep their order.  It compares keys
    with [<] only and raises [TypeError] at the first pair that is not
    ordered; a list of fewer than two elements is never compared.  The
    insertion below has these properties: which pairs meet differs from
    timsort, but both raise exactly when the list has at least two elements
    whose keys are not all of one ordered kind. *)

Definition not_ordered : exn :=
  TypeError "'<' not supported between instances".

Fixpoint insert_desc {A} (key : A → value) (x : A) (l : list A)
  : outcome (list A) :=
  match l with
  | [] => Return [x]
  | y :: l' =>
      match py_lt (key x) (key y) with
      | None => Raise not_ordered
      | Some true => cons y <$> insert_desc key x l'
      | Some false => Return (x :: y :: l')
      end
  end.

Fixpoint sorted_reverse {A} (key : A → value) (l : list A)
  : outcome (list A) :=
  match l with
  | [] => Return []
  | x :: l' => sorted_reverse key l' ≫= insert_desc key x
  end.

(** [o or dflt] on an [Optional[str]] *)
Definition str_or (o : option string) (dflt : string) : string :=
  match o with
  | None => dflt
  | Some s => if String.eqb s "" then dflt else s
  end.

(** ** Request bodies (pydantic models)

    A field of a JSON body is left out, sent as [null], or sent with a value
    that pydantic has validated to the declared type. *)

Inductive field (A : Type) :=
| Unset
| Null
| Val (a : A).
Arguments Unset {A}.
Arguments Null {A}.
Arguments Val {A} a.

(** The value pydantic stores for a field declared [Optional[A] = dflt]. *)
Definition with_default {A} (dflt : option A) (f : field A) : option A :=
  match f with
  | Unset => dflt
  | Null => None
  | Val a => Some a
  end.

(** The body of [POST /api/tasks] before validation; [title] is required,
    keys the model does not declare are ignored. *)
Module CreateBody.
Record t := mk {
  title : string;
  priority : field string;
  due_date : field datetime;
  notes : field string;
}.
End CreateBody.

(** [class TaskCreate(BaseModel)] *)
Module TaskCreate.
Record t := mk {
  title : string;
  priority : option string;
  due_date : option datetime;
  notes : option string;
}.

Definition validate (b : CreateBody.t) : t :=
  {| title := CreateBody.title b;
     priority := with_default (Some "medium") (CreateBody.priority b);
     due_date := with_default None (CreateBody.due_date b);
     notes := with_default None (CreateBody.notes b) |}.
End TaskCreate.

(** [class TaskUpdate(BaseModel)]: every field is [Optional[...] = None], and
    pydantic remembers which ones the body set. *)
Module TaskUpdate.
Record t := mk {
  title : field string;
  completed : field bool;
  priority : field string;
  due_date : field datetime;
  notes : field string;
}.

Definition dump_field {A} (k : string) (inj : A → value) (f : field A)
  : list (string * value) :=
  match f with
  | Unset => []
  | Null => [(k, VNone)]
  | Val a => [(k, inj a)]
  end.

(** [payload.model_dump(exclude_unset=True).items()] *)
Definition model_dump_exclude_unset (p : t) : list (string * value) :=
  dump_field "title" VStr (title p)
  ++ dump_field "completed" VBool (completed p)
  ++ dump_field "priority" VStr (priority p)
  ++ dump_field "due_date" VDate (due_date p)
  ++ dump_field "notes" VStr (notes p).
End TaskUpdate.

(** Modelled from the spec: the [Task] schema of [schemas.py], which is not
    among the sources.  The spec's data model gives a task a title, a
    completion flag, a priority, an optional due date and optional notes;
    [create_task] builds it with exactly these five keywords. *)
Module Task.
Record t := mk {
  title : string;
  completed : bool;
  priority : string;
  due_date : option datetime;
  notes : option string;
}.
End Task.

(** ** HTTP responses *)

Inductive content (A : Type) :=
| Json (a : A)
| Detail (d : string)
| NoBody.
Arguments Json {A} a.
Arguments Detail {A} d.
Arguments NoBody {A}.

Record response (A : Type) := mk_response {
  status : Z;
  body : content A;
}.
Arguments mk_response {A} status body.
Arguments status {A} r.
Arguments body {A} r.

(** FastAPI sends no body with the informational statuses, 204, 205 and 304
    (its [is_body_allowed_for_status_code]); the pydantic-v2 call
    [model_dump] of this service needs a FastAPI that has this rule. *)
Definition is_body_allowed_for_status_code (status_code : Z) : bool :=
  negb ((status_code <? 200)%Z
        || bool_decide (status_code ∈ [204; 205; 304]%Z)).

(** What a route decorated with [status_code] answers when its function
    returns or raises; an exception other than [HTTPException] surfaces as
    a server fault. *)
Definition respond {A} (status_code : Z) (r : outcome A) : response A :=
  match r with
  | Return a =>
      mk_response status_code
        (if is_body_allowed_for_status_code status_code then Json a
         else NoBody)
  | Raise (HTTPException c d) => mk_response c (Detail d)
  | Raise _ => mk_response 500 (Detail "Internal Server Error")
  end.

(** The entry [k] of a JSON object sent as body. *)
Definition json_field (r : response (gmap string value)) (k : string)
  : option value :=
  match body r with
  | Json m => m !! k
  | _ => None
  end.

(** [GET /test] answers a dict with these six keys. *)
Record diagnostics := mk_diagnostics {
  backend : string;
  database : string;
  database_url : option string;
  database_name : option string;
  connection_status : string;
  collections : list string;
}.

(** ** The store and the handlers *)

(** The library code the handlers call: [bson.ObjectId] and
    [datetime.isoformat]. *)
Class ObjectIdLib (oid : Type) := {
  oid_eq_dec :: EqDecision oid;
  (** [ObjectId.is_valid(s)] *)
  is_valid : string → bool;
  (** [ObjectId(s)], called on strings that passed [is_valid] *)
  ObjectId : string → oid;
  (** [str(o)] on an object id *)
  str : oid → string;
}.

Class DatetimeLib := {
  (** [t.isoformat()] *)
  isoformat : datetime → string;
}.

Section Handlers.
Context {oid : Type} `{ObjectIdLib oid} `{DatetimeLib}.

Record document := mk_document {
  _id : oid;
  fields : gmap string value;
}.

(** The database behind the global [db]: its [name] attribute (if it has
    one), what [list_collection_names()] does at present (raises an
    exception whose text is given, or returns the names), and the records
    of the collection ["task"] in natural order. *)
Record Database := mk_Database {
  name : option string;
  list_collection_names : string + list string;
  task : list document;
}.

Inductive store_call :=
| Find
| FindOne (o : oid)
| InsertOne (d : document)
| UpdateOne (o : oid) (upd : gmap string value)
| DeleteOne (o : oid)
| ListCollectionNames.

(** [DATABASE_URL] is [os.getenv("DATABASE_URL")]. *)
Record World := mk_World {
  db : option Database;
  calls : list store_call;
  DATABASE_URL : option string;
}.

Definition handler (A : Type) : Type := World → outcome A * World.

#[global] Instance handler_ret : MRet handler := λ A a w, (Return a, w).
#[global] Instance handler_bind : MBind handler := λ A B f m w,
  match m w with
  | (Return a, w') => f a w'
  | (Raise e, w') => (Raise e, w')
  end.

Definition raise {A} (e : exn) : handler A := λ w, (Raise e, w).

Definition lift {A} (r : outcome A) : handler A := λ w, (r, w).

(** *** pymongo on a list of records *)

(** [find_one({"_id": o})] *)
Fixpoint find_one (o : oid) (c : list document) : option document :=
  match c with
  | [] => None
  | d :: c' => if decide (_id d = o) then Some d else find_one o c'
  end.

(** [{"$set": upd}] on one record: the keys of [upd] are written, each
    value as the store keeps it, and the other entries stay. *)
Definition set_fields (upd : gmap string value) (d : document) : document :=
  mk_document (_id d) ((bson_value <$> upd) ∪ fields d).

(** [update_one({"_id": o}, {"$set": upd})]: the first record that matches
    is updated; without a match nothing is written (no upsert). *)
Fixpoint update_one (o : oid) (upd : gmap string value) (c : list document)
  : list document :=
  match c with
  | [] => []
  | d :: c' =>
      if decide (_id d = o) then set_fields upd d :: c'
      else d :: update_one o upd c'
  end.

(** [delete_one({"_id": o})]: the first record that matches is removed. *)
Fixpoint delete_one (o : oid) (c : list document) : list document :=
  match c with
  | [] => []
  | d :: c' => if decide (_id d = o) then c' else d :: delete_one o c'
  end.

(** [matched_count] and [deleted_count] of these two calls *)
Definition match_count (o : oid) (c : list document) : nat :=
  match find_one o c with Some _ => 1 | None => 0 end.

(** *** The collection [db["task"]] *)

(** [db["task"]] when [db] is [None] *)
Definition not_subscriptable : exn :=
  TypeError "'NoneType' object is not subscriptable".

Definition with_task (d : Database) (c : list document) : Database :=
  mk_Database (name d) (list_collection_names d) c.

Definition call (k : store_call) (d : Database) (w : World) : World :=
  mk_World (Some d) (calls w ++ [k]) (DATABASE_URL w).

Definition task_find_one (o : oid) : handler (option document) := λ w,
  match db w with
  | None => (Raise not_subscriptable, w)
  | Some d => (Return (find_one o (task d)), call (FindOne o) d w)
  end.

Definition task_update_one (o : oid) (upd : gmap string value)
  : handler nat := λ w,
  match db w with
  | None => (Raise not_subscriptable, w)
  | Some d =>
      (Return (match_count o (task d)),
       call (UpdateOne o upd) (with_task d (update_one o upd (task d))) w)
  end.

Definition task_delete_one (o : oid) : handler nat := λ w,
  match db w with
  | None => (Raise not_subscriptable, w)
  | Some d =>
      (Return (match_count o (task d)),
       call (DeleteOne o) (with_task d (delete_one o (task d))) w)
  end.

(** *** Serialization *)

(** [if k in doc and isinstance(doc[k], datetime): doc[k] = doc[k].isoformat()] *)
Definition iso_field (k : string) (doc : gmap string value)
  : gmap string value :=
  match doc !! k with
  | Some (VDate t) => <[k := VStr (isoformat t)]> doc
  | _ => doc
  end.

(** [serialize_task(doc)]; [doc] is [None] when [find_one] found nothing.
    A record from the store is never an empty dict: it has its [_id]. *)
Definition serialize_task (doc : option document) : gmap string value :=
  match doc with
  | None => ∅
  | Some d =>
      let doc := <["id" := VStr (str (_id d))]> (fields d) in
      let doc := iso_field "due_date" doc in
      let doc := iso_field "created_at" doc in
      iso_field "updated_at" doc
  end.

(** *** [database.py], which is not among the sources *)

Definition not_available : exn := StoreError "Database not available".

(** Modelled from the spec: [get_documents("task", {}, limit=None)] of
    [database.py].  The spec has list-tasks "fetch all task records", and a
    store failure inside an ordinary handler "propagates as an unhandled
    server error". *)
Definition get_documents : handler (list document) := λ w,
  match db w with
  | None => (Raise not_available, w)
  | Some d => (Return (task d), call Find d w)
  end.

(** Modelled from the spec: the dict stored for a [Task].  Title,
    completion flag and priority are always there; due date and notes are
    "absent unless supplied". *)
Definition task_dict (data : Task.t) : gmap string value :=
  let doc : gmap string value :=
    {[ "title" := VStr (Task.title data);
       "completed" := VBool (Task.completed data);
       "priority" := VStr (Task.priority data) ]} in
  let doc :=
    match Task.due_date data with
    | Some t => <["due_date" := VDate t]> doc
    | None => doc
    end in
  match Task.notes data with
  | Some n => <["notes" := VStr n]> doc
  | None => doc
  end.

(** Modelled from the spec: [create_document("task", task)] of
    [database.py].  The spec has the store assign the identifier
    ([new_id], chosen by the store) and creation stamp [created_at] ([now]
    is the stamp the record is stored with: the clock is read in
    [database.py], not in [create_task]); [updated_at] is "absent until
    first mutation".  The call returns the new identifier as a string. *)
Definition create_document (new_id : oid) (now : datetime) (data : Task.t)
  : handler string := λ w,
  match db w with
  | None => (Raise not_available, w)
  | Some d =>
      let doc :=
        mk_document new_id (<["created_at" := VDate now]> (task_dict data)) in
      (Return (str new_id),
       call (InsertOne doc) (with_task d (task d ++ [doc])) w)
  end.

(** *** The handlers of [main.py] *)

Definition read_root : handler (gmap string value) :=
  mret {[ "message" := VStr "Christmas To-Do Backend is running!" ]}.

(** [test_database()].  The statements of the outer [try] other than the
    inner [try] ([db is not None], [os.getenv], [hasattr], [db.name]) do
    not raise, so its [except] clause has no branch here. *)
Definition test_database : handler diagnostics := λ w,
  match db w with
  | Some d =>
      let url :=
        if negb (String.eqb (default "" (DATABASE_URL w)) "")
        then "✅ Set" else "❌ Not Set" in
      let nm := default "✅ Connected" (name d) in
      let w' := call ListCollectionNames d w in
      match list_collection_names d with
      | inr names =>
          (Return (mk_diagnostics "✅ Running" "✅ Connected & Working"
                     (Some url) (Some nm) "Connected" (take 10 names)), w')
      | inl e =>
          (Return (mk_diagnostics "✅ Running"
                     ("⚠️  Connected but Error: " ++ str_take 50 e)
                     (Some url) (Some nm) "Connected" []), w')
      end
  | None =>
      (Return (mk_diagnostics "✅ Running" "⚠️  Available but not initialized"
                 None None "Not Connected" []), w)
  end.

(** [lambda d: d.get("created_at", datetime.min)] *)
Definition created_at_key (d : document) : value :=
  default (VDate datetime_min) (fields d !! "created_at").

Definition list_tasks : handler (list (gmap string value)) :=
  docs ← get_documents;
  docs ← lift (sorted_reverse created_at_key docs);
  mret ((λ d, serialize_task (Some d)) <$> docs).

(** The [Task(...)] that [create_task] builds from its payload. *)
Definition new_task (payload : TaskCreate.t) : Task.t :=
  Task.mk (TaskCreate.title payload)
          false
          (str_or (TaskCreate.priority payload) "medium")
          (TaskCreate.due_date payload)
          (TaskCreate.notes payload).

Definition create_task (new_id : oid) (now : datetime) (payload : TaskCreate.t)
  : handler (gmap string value) :=
  let task := new_task payload in
  new_id ← create_document new_id now task;
  doc ← task_find_one (ObjectId new_id);
  mret (serialize_task doc).

Definition get_task (task_id : string) : handler (gmap string value) :=
  if negb (is_valid task_id)
  then raise (HTTPException 400 "Invalid task id")
  else
    doc ← task_find_one (ObjectId task_id);
    match doc with
    | None => raise (HTTPException 404 "Task not found")
    | Some _ => mret (serialize_task doc)
    end.

(** [{k: v for k, v in payload.model_dump(exclude_unset=True).items()
      if v is not None}] *)
Definition update_set (payload : TaskUpdate.t) : gmap string value :=
  list_to_map
    (filter (λ kv, kv.2 ≠ VNone) (TaskUpdate.model_dump_exclude_unset payload)).

Definition update_task (now : datetime) (task_id : string)
    (payload : TaskUpdate.t) : handler (gmap string value) :=
  if negb (is_valid task_id)
  then raise (HTTPException 400 "Invalid task id")
  else
    let update := update_set payload in
    if decide (update = ∅) then get_task task_id
    else
      let update := <["updated_at" := VDate now]> update in
      res ← task_update_one (ObjectId task_id) update;
      if decide (res = 0) then raise (HTTPException 404 "Task not found")
      else
        doc ← task_find_one (ObjectId task_id);
        mret (serialize_task doc).

Definition delete_task (task_id : string) : handler (gmap string value) :=
  if negb (is_valid task_id)
  then raise (HTTPException 400 "Invalid task id")
  else
    res ← task_delete_one (ObjectId task_id);
    if decide (res = 0) then raise (HTTPException 404 "Task not found")
    else mret {[ "ok" := VBool true ]}.

(** [{"completed": new_val, "updated_at": datetime.utcnow()}] *)
Definition toggle_set (new_val : bool) (now : datetime) : gmap string value :=
  {[ "completed" := VBool new_val; "updated_at" := VDate now ]}.

(** [bool(doc.get("completed", False))] *)
Definition completed_state (d : document) : bool :=
  truthy (default (VBool false) (fields d !! "completed")).

Definition toggle_task (now : datetime) (task_id : string)
  : handler (gmap string value) :=
  if negb (is_valid task_id)
  then raise (HTTPException 400 "Invalid task id")
  else
    doc ← task_find_one (ObjectId task_id);
    match doc with
    | None => raise (HTTPException 404 "Task not found")
    | Some d =>
        let new_val := negb (completed_state d) in
        _ ← task_update_one (ObjectId task_id) (toggle_set new_val now);
        doc ← task_find_one (ObjectId task_id);
        mret (serialize_task doc)
    end.

(** *** Routes: the decorators of the handlers *)

Definition route {A} (status_code : Z) (h : handler A)
  : World → response A * World :=
  λ w, let (r, w') := h w in (respond status_code r, w').

Definition GET_test := route 200 test_database.
Definition GET_tasks := route 200 list_tasks.
Definition POST_tasks new_id now payload :=
  route 201 (create_task new_id now (TaskCreate.validate payload)).
Definition PATCH_task now task_id payload :=
  route 200 (update_task now task_id payload).
Definition DELETE_task task_id := route 204 (delete_task task_id).
Definition POST_toggle now task_id := route 200 (toggle_task now task_id).
Definition GET_task task_id := route 200 (get_task task_id).

(** The four routes that take a task id in their path. *)
Definition id_routes (now : datetime) (task_id : string)
    (payload : TaskUpdate.t)
  : list (World → response (gmap string value) * World) :=
  [ GET_task task_id; PATCH_task now task_id payload;
    POST_toggle now task_id; DELETE_task task_id ].

(** *** Vocabulary of the properties *)

(** The records of the store, [None] when [db] is [None]. *)
Definition records (w : World) : option (list document) := task <$> db w.

(** Identifier and [created_at] entry of every record, in store order. *)
Definition created_ats (w : World) : option (list (oid * option value)) :=
  fmap (M := list) (λ d, (_id d, fields d !! "created_at")) <$> records w.

(** A connected world. *)
Definition connected (d : Database) (cs : list store_call)
    (url : option string) : World :=
  mk_World (Some d) cs url.

(** The [created_at] entry of a record is a date-time when it is there. *)
Definition created_at_typed (d : document) : Prop :=
  ∀ v, fields d !! "created_at" = Some v → ∃ t, v = VDate t.

(** The time a record sorts by: its [created_at], the earliest possible
    time without one. *)
Definition created_at_time (d : document) : datetime :=
  match fields d !! "created_at" with
  | Some (VDate t) => t
  | _ => datetime_min
  end.

(** The identifiers of a collection are unique (the store's index on
    [_id]). *)
Definition unique_ids (c : list document) : Prop := NoDup (_id <$> c).

(** The keys under which [serialize_task] renders date-times. *)
Definition date_keys : list string := ["due_date"; "created_at"; "updated_at"].

(** A value as [serialize_task] sends it under a date key: a date-time in
    ISO format, anything else as it is. *)
Definition iso_value (v : value) : value :=
  match v with
  | VDate t => VStr (isoformat t)
  | _ => v
  end.

(** The identifiers of the records, in store order. *)
Definition ids (w : World) : option (list oid) :=
  fmap (M := list) _id <$> records w.
End Handlers.

(** Strictly ascending by time. *)
Definition ascending {A} (time : A → datetime) : relation A :=
  λ a b, (time a < time b)%N.

(** Every occurrence of [x] in [l] comes before every occurrence of [y]. *)
Definition all_before {A} (x y : A) (l : list A) : Prop :=
  ∀ i j, l !! i = Some x → l !! j = Some y → i < j.

(** Descending by time. *)
Definition descending {A} (time : A → datetime) : relation A :=
  λ a b, (time b ≤ time a)%N.

(** The sort key of [a] is the date-time [time a]. *)
Definition dated {A} (key : A → value) (time : A → datetime) (a : A) : Prop :=
  key a = VDate (time a).

(** A field of a body carries no value: it is left out or [null]. *)
Definition no_value {A} (f : field A) : Prop :=
  match f with Val _ => False | _ => True end.

(** The non-null value a field of a body carries, if any. *)
Definition field_value {A} (inj : A → value) (f : field A) : option value :=
  match f with Val a => Some (inj a) | _ => None end.

(** The non-null value a [PATCH] body supplies for key [k], following the
    words of the spec: "the fields actually supplied and non-null", out of
    title, completed, priority, due_date and notes. *)
Definition supplied_non_null (p : TaskUpdate.t) (k : string) : option value :=
  if decide (k = "title") then field_value VStr (TaskUpdate.title p)
  else if decide (k = "completed") then
    field_value VBool (TaskUpdate.completed p)
  else if decide (k = "priority") then field_value VStr (TaskUpdate.priority p)
  else if decide (k = "due_date") then field_value VDate (TaskUpdate.due_date p)
  else if decide (k = "notes") then field_value VStr (TaskUpdate.notes p)
  else None.

(** A [PATCH] body that supplies no field with a non-null value. *)
Definition no_values (p : TaskUpdate.t) : Prop :=
  no_value (TaskUpdate.title p) ∧ no_value (TaskUpdate.completed p)
  ∧ no_value (TaskUpdate.priority p) ∧ no_value (TaskUpdate.due_date p)
  ∧ no_value (TaskUpdate.notes p).

(** ** Instances for the examples

    A sample identifier syntax: 24 hexadecimal digits in either case, the
    object id being the lower-case string; and a sample rendering of
    date-times: the microsecond count in decimal. *)

Definition hex_digit (c : ascii) : bool :=
  let n := nat_of_ascii c in
  (Nat.leb 48 n && Nat.leb n 57) || (Nat.leb 97 n && Nat.leb n 102)
  || (Nat.leb 65 n && Nat.leb n 70).

Definition lower (c : ascii) : ascii :=
  let n := nat_of_ascii c in
  if Nat.leb 65 n && Nat.leb n 70 then ascii_of_nat (n + 32) else c.

Fixpoint str_all (P : ascii → bool) (s : string) : bool :=
  match s with
  | EmptyString => true
  | String c s' => P c && str_all P s'
  end.

Fixpoint str_map (f : ascii → ascii) (s : string) : string :=
  match s with
  | EmptyString => EmptyString
  | String c s' => String (f c) (str_map f s')
  end.

#[global] Instance hex24 : ObjectIdLib string := {|
  is_valid s := Nat.eqb (String.length s) 24 && str_all hex_digit s;
  ObjectId s := str_map lower s;
  str o := o;
|}.

#[global] Instance micros : DatetimeLib := {|
  isoformat t := pretty t;
|}.

Definition id_a : string := "64b7f0c2a1d3e4f5a6b7c8d9".
Definition id_b : string := "64b7f0c2a1d3e4f5a6b7c8da".
Definition id_c : string := "64b7f0c2a1d3e4f5a6b7c8db".

(** A record created at time 100, never mutated. *)
Definition doc_a : @document string :=
  mk_document id_a
    {[ "title" := VStr "Buy gifts"; "completed" := VBool false;
       "priority" := VStr "medium"; "notes" := VStr "wrap them";
       "created_at" := VDate 100%N ]}.

(** A record created at time 200. *)
Definition doc_b : @document string :=
  mk_document id_b
    {[ "title" := VStr "Bake"; "completed" := VBool true;
       "priority" := VStr "high"; "created_at" := VDate 200%N ]}.

(** A record without [completed] and without [created_at]. *)
Definition doc_bare : @document string :=
  mk_document id_c {[ "title" := VStr "Tree" ]}.

(** A record stamped with the earliest possible time. *)
Definition doc_min : @document string :=
  mk_document id_b
    {[ "title" := VStr "Old"; "created_at" := VDate datetime_min ]}.

Definition store (c : list (@document string)) : @World string :=
  connected (mk_Database (Some "xmas") (inr ["task"]) c) [] (Some "mongodb://x").

Definition body_empty : TaskUpdate.t :=
  TaskUpdate.mk Unset Unset Unset Unset Unset.

(** * Properties *)

#[local] Open Scope list_scope.

(** Unfolds the monad of the handlers down to the store primitives. *)
Ltac run :=
  unfold route, raise, lift, task_find_one, task_update_one, task_delete_one,
    get_documents, create_document, call, with_task, connected, records;
  unfold mbind, mret, handler_bind, handler_ret; simpl.

(** ** [sorted] on date-time keys *)

Section Sorting.
Context {A : Type} (key : A → value) (time : A → datetime).

Lemma insert_desc_spec (x : A) (l : list A) :
  dated key time x → Forall (dated key time) l →
  StronglySorted (descending time) l →
  ∃ l1 l2,
    l = l1 ++ l2
    ∧ insert_desc key x l = Return (l1 ++ x :: l2)
    ∧ Forall (λ y, (time x < time y)%N) l1
    ∧ Forall (λ y, (time y ≤ time x)%N) l2.
Proof.
  intros Hx. induction l as [|y l IH]; intros Hk Hl.
  - exists [], []. split; [done|]. split; [done|]. by split.
  - apply StronglySorted_inv in Hl as [Hl Hy].
    apply Forall_cons in Hk as [Hky Hk]. simpl.
    rewrite Hx, Hky. simpl. destruct (N.ltb_spec (time x) (time y)) as [Hlt|Hge].
    + destruct (IH Hk Hl) as (l1 & l2 & -> & -> & H1 & H2).
      exists (y :: l1), l2. repeat split; [by constructor | done].
    + exists [], (y :: l). repeat split; [constructor|].
      constructor; [done|]. eapply Forall_impl; [exact Hy|].
      unfold descending. intros z Hz. simpl in Hz. lia.
Qed.

Lemma filter_time_above (t : datetime) (l : list A) :
  Forall (λ y, (t < time y)%N) l → filter (λ a, time a = t) l = [].
Proof.
  induction 1 as [|y l Hy _ IH]; [done|].
  rewrite filter_cons, IH. case_decide; [lia | done].
Qed.

(** On keys that are date-times, [sorted(..., reverse=True)] returns: a
    permutation, descending, with equal keys in their former order. *)
Lemma sorted_reverse_spec (l : list A) :
  Forall (dated key time) l →
  ∃ l',
    sorted_reverse key l = Return l'
    ∧ l' ≡ₚ l
    ∧ StronglySorted (descending time) l'
    ∧ ∀ t, filter (λ a, time a = t) l' = filter (λ a, time a = t) l.
Proof.
  induction l as [|x l IH]; intros Hk.
  - exists []. split; [done|]. split; [done|]. split; [constructor | done].
  - apply Forall_cons in Hk as [Hx Hk].
    destruct (IH Hk) as (l' & Hs & Hp & Hd & Hf).
    assert (Forall (dated key time) l') as Hk' by by rewrite Hp.
    destruct (insert_desc_spec x l' Hx Hk' Hd)
      as (l1 & l2 & -> & Hi & H1 & H2).
    exists (l1 ++ x :: l2). simpl. rewrite Hs. simpl. split; [exact Hi|].
    apply StronglySorted_app in Hd as (H12 & Hd1 & Hd2).
    split; [|split].
    + rewrite <- Hp. symmetry. apply Permutation_middle.
    + apply StronglySorted_app. split; [|split; [done|]].
      * intros a b Ha Hb. apply elem_of_cons in Hb as [-> | Hb].
        -- rewrite Forall_forall in H1. specialize (H1 a Ha).
           unfold descending. lia.
        -- by apply H12.
      * constructor; [done|]. eapply Forall_impl; [exact H2|]. done.
    + intros t. rewrite filter_app, !filter_cons, <- Hf, filter_app.
      case_decide as Ht; [|done].
      rewrite filter_time_above; [done|]. by rewrite <- Ht.
Qed.

(** In a descending list a strictly later element comes first. *)
Lemma descending_all_before (a b : A) (l : list A) :
  StronglySorted (descending time) l → (time b < time a)%N → all_before a b l.
Proof.
  intros Hl Hab i j Hi Hj.
  destruct (lt_eq_lt_dec i j) as [[Hlt | ->] | Hgt]; [done | |].
  - rewrite Hi in Hj. injection Hj as ->. lia.
  - apply list_elem_of_split_length in Hi as (l1 & l2 & -> & ->).
    apply StronglySorted_app in Hl as (H12 & _ & _).
    assert (b ∈ l1) as Hb.
    { rewrite lookup_app_l in Hj by done. by eapply list_elem_of_lookup_2. }
    specialize (H12 b a Hb ltac:(left)). unfold descending in H12. lia.
Qed.
End Sorting.

Section Properties.
Context {oid : Type} `{ObjectIdLib oid} `{DatetimeLib}.
Implicit Types (o : oid) (d : @document oid) (c : list (@document oid)).
Implicit Types (w : @World oid) (upd : gmap string value).
Implicit Types (D : @Database oid) (cs : list (@store_call oid)).

(** ** The store primitives *)

Lemma find_one_Some o c d :
  find_one o c = Some d → _id d = o ∧ d ∈ c.
Proof.
  induction c as [|x c IH]; simpl; [done|].
  case_decide as Hx.
  - intros [= ->]. split; [done | left].
  - intros Hd. destruct (IH Hd). split; [done | by right].
Qed.

Lemma find_one_None o c :
  find_one o c = None ↔ o ∉ _id <$> c.
Proof.
  induction c as [|x c IH]; csimpl.
  - split; [intros _; apply not_elem_of_nil | done].
  - rewrite not_elem_of_cons. case_decide as Hx.
    + split; [done | intros [Hne _]; by destruct Hne].
    + rewrite IH. split; [intros Hc; split; [congruence | done] | by intros [_ Hc]].
Qed.

Lemma update_one_None o upd c :
  find_one o c = None → update_one o upd c = c.
Proof.
  induction c as [|x c IH]; simpl; [done|].
  case_decide; [done|]. intros Hc. by rewrite IH.
Qed.

Lemma delete_one_None o c :
  find_one o c = None → delete_one o c = c.
Proof.
  induction c as [|x c IH]; simpl; [done|].
  case_decide; [done|]. intros Hc. by rewrite IH.
Qed.

Lemma find_one_update_one o upd c :
  find_one o (update_one o upd c) = set_fields upd <$> find_one o c.
Proof.
  induction c as [|x c IH]; simpl; [done|].
  case_decide as Hx; simpl.
  - by rewrite decide_True.
  - by rewrite decide_False.
Qed.

Lemma set_fields_lookup upd d (k : string) :
  fields (set_fields upd d) !! k
  = match upd !! k with
    | Some v => Some (bson_value v)
    | None => fields d !! k
    end.
Proof.
  simpl. rewrite lookup_union, lookup_fmap.
  by destruct (upd !! k), (fields d !! k).
Qed.

Lemma bson_datetime_mono (t u : datetime) :
  (t ≤ u)%N → (bson_datetime t ≤ bson_datetime u)%N.
Proof.
  intros Htu. unfold bson_datetime. apply N.mul_le_mono_r.
  by apply N.Div0.div_le_mono.
Qed.

Lemma update_one_ids o upd c :
  _id <$> update_one o upd c = _id <$> c.
Proof.
  induction c as [|x c IH]; csimpl; [done|].
  case_decide; csimpl; [done|]. by rewrite IH.
Qed.

(** [$set] leaves every key outside the update set as it was. *)
Lemma update_one_frame (k : string) o upd c :
  upd !! k = None →
  (λ d, (_id d, fields d !! k)) <$> update_one o upd c
  = (λ d, (_id d, fields d !! k)) <$> c.
Proof.
  intros Hk. induction c as [|x c IH]; csimpl; [done|].
  case_decide; csimpl; [|by rewrite IH].
  by rewrite lookup_union_r by (by rewrite lookup_fmap, Hk).
Qed.

Lemma delete_one_Some o c d :
  find_one o c = Some d → c ≡ₚ d :: delete_one o c.
Proof.
  induction c as [|x c IH]; simpl; [done|].
  case_decide as Hx.
  - by intros [= ->].
  - intros Hd. rewrite (IH Hd) at 1. apply Permutation_swap.
Qed.

Lemma find_one_delete_one o c :
  unique_ids c → find_one o (delete_one o c) = None.
Proof.
  unfold unique_ids. induction c as [|x c IH]; csimpl; [done|].
  rewrite NoDup_cons. intros [Hx Hc]. case_decide as Hid; csimpl.
  - subst o. by apply find_one_None.
  - rewrite decide_False by done. by apply IH.
Qed.

Lemma match_count_0 o c : match_count o c = 0 ↔ find_one o c = None.
Proof. unfold match_count. destruct (find_one o c); naive_solver. Qed.

(** ** Identifier validation comes first *)

Lemma get_task_invalid task_id w :
  is_valid task_id = false →
  get_task task_id w = (Raise (HTTPException 400 "Invalid task id"), w).
Proof. intros Hv. unfold get_task. by rewrite Hv. Qed.

Lemma get_task_absent task_id D cs url :
  is_valid task_id = true →
  find_one (ObjectId task_id) (task D) = None →
  (get_task task_id (connected D cs url)).1
    = Raise (HTTPException 404 "Task not found")
  ∧ records (get_task task_id (connected D cs url)).2 = Some (task D).
Proof. intros Hv Hd. unfold get_task. rewrite Hv. run. by rewrite Hd. Qed.

(** C1: on each of the four routes that take a task id, an identifier that
    [ObjectId.is_valid] rejects is answered 400 and the world is left as it
    was (no call reaches the store); an identifier it accepts but that no
    record of the store carries is answered 404 and the records are
    unchanged. *)
Theorem invalid_id_is_400_absent_id_is_404 (now : datetime)
    (task_id : string) (payload : TaskUpdate.t) w r :
  r ∈ id_routes now task_id payload →
  (is_valid task_id = false →
     r w = (mk_response 400 (Detail "Invalid task id"), w))
  ∧ (is_valid task_id = true →
     ∀ D cs url, w = connected D cs url →
       find_one (ObjectId task_id) (task D) = None →
       (r w).1 = mk_response 404 (Detail "Task not found")
       ∧ records (r w).2 = Some (task D)).
Proof.
  unfold id_routes. rewrite !elem_of_cons, elem_of_nil.
  intros [-> | [-> | [-> | [-> | []]]]]; split.
  - intros Hv. unfold GET_task, route. by rewrite get_task_invalid.
  - intros Hv D cs url -> Hd. unfold GET_task, route.
    destruct (get_task_absent task_id D cs url Hv Hd) as [Hr Hw].
    destruct (get_task task_id _) as [r w']. simpl in *. by subst r.
  - intros Hv. unfold PATCH_task, route, update_task. by rewrite Hv.
  - intros Hv D cs url -> Hd. unfold PATCH_task, route, update_task.
    rewrite Hv. simpl. case_decide.
    + destruct (get_task_absent task_id D cs url Hv Hd) as [Hr Hw].
      destruct (get_task task_id _) as [r w']. simpl in *. by subst r.
    + run. rewrite (proj2 (match_count_0 _ _) Hd). simpl.
      by rewrite update_one_None.
  - intros Hv. unfold POST_toggle, route, toggle_task. by rewrite Hv.
  - intros Hv D cs url -> Hd. unfold POST_toggle, route, toggle_task.
    rewrite Hv. run. by rewrite Hd.
  - intros Hv. unfold DELETE_task, route, delete_task. by rewrite Hv.
  - intros Hv D cs url -> Hd. unfold DELETE_task, route, delete_task.
    rewrite Hv. run. rewrite (proj2 (match_count_0 _ _) Hd). simpl.
    by rewrite delete_one_None.
Qed.

(** ** Creation *)

Lemma task_dict_lookup (data : Task.t) :
  task_dict data !! "completed" = Some (VBool (Task.completed data))
  ∧ task_dict data !! "priority" = Some (VStr (Task.priority data))
  ∧ task_dict data !! "created_at" = None
  ∧ task_dict data !! "updated_at" = None.
Proof.
  unfold task_dict.
  destruct (Task.due_date data), (Task.notes data); by simplify_map_eq.
Qed.

Lemma create_task_records (new_id : oid) (now : datetime)
    (payload : TaskCreate.t) D cs url :
  records (create_task new_id now payload (connected D cs url)).2
  = Some (task D ++ [mk_document new_id
                       (<["created_at" := VDate now]>
                          (task_dict (new_task payload)))])%list.
Proof. unfold create_task. by run. Qed.

(** C2: the [Task] that [create_task] builds has [completed = False]
    whatever the body holds, and priority ["medium"] when the body leaves
    the priority out, sends [null] or sends the empty string (a non-empty
    priority is kept); the record the store receives carries these two
    values. *)
Theorem create_task_defaults (new_id : oid) (now : datetime)
    (b : CreateBody.t) D cs url :
  let t := new_task (TaskCreate.validate b) in
  Task.completed t = false
  ∧ (no_value (CreateBody.priority b) ∨ CreateBody.priority b = Val "" →
     Task.priority t = "medium")
  ∧ (∀ s, CreateBody.priority b = Val s → s ≠ "" → Task.priority t = s)
  ∧ ∃ doc,
      records (POST_tasks new_id now b (connected D cs url)).2
        = Some (task D ++ [doc])%list
      ∧ _id doc = new_id
      ∧ fields doc !! "completed" = Some (VBool false)
      ∧ fields doc !! "priority" = Some (VStr (Task.priority t)).
Proof.
  simpl. split; [done|]. split; [|split].
  - destruct b as [ti [| |s] dd n]; simpl; [done | done |].
    intros [[] | [= ->]]. done.
  - intros s Hs Hne. destruct b as [ti p dd n]; simpl in *. subst p. simpl.
    destruct (String.eqb_spec s ""); done.
  - exists (mk_document new_id
              (<["created_at" := VDate now]>
                 (task_dict (new_task (TaskCreate.validate b))))).
    unfold POST_tasks, create_task. run.
    split; [done|]. split; [done|].
    destruct (task_dict_lookup (new_task (TaskCreate.validate b)))
      as (Hc & Hp & _).
    rewrite !lookup_insert_ne by done. by rewrite Hc, Hp.
Qed.

(** ** Listing *)

Lemma created_at_typed_dated d :
  created_at_typed d → dated created_at_key created_at_time d.
Proof.
  unfold created_at_typed, dated, created_at_key, created_at_time.
  intros Hd. destruct (fields d !! "created_at") as [v|]; [|done].
  destruct (Hd v eq_refl) as [t ->]. done.
Qed.

(** C3, amended: when every [created_at] of the store is a date-time,
    list-tasks answers all the records, serialized, in descending order of
    [created_at], a record without [created_at] counting as
    [datetime.min]; records with equal times keep their store order.  So a
    record created strictly later than another comes before it, and a
    record without [created_at] comes after every record whose
    [created_at] is later than [datetime.min]. *)
Theorem list_tasks_sorted_by_created_at_desc D cs url :
  Forall created_at_typed (task D) →
  ∃ docs,
    (GET_tasks (connected D cs url)).1
      = mk_response 200 (Json ((λ d, serialize_task (Some d)) <$> docs))
    ∧ docs ≡ₚ task D
    ∧ StronglySorted (descending created_at_time) docs
    ∧ (∀ t, filter (λ d, created_at_time d = t) docs
            = filter (λ d, created_at_time d = t) (task D))
    ∧ (∀ a b, (created_at_time b < created_at_time a)%N →
              all_before a b docs)
    ∧ (∀ a b t, fields a !! "created_at" = Some (VDate t) →
                (datetime_min < t)%N →
                fields b !! "created_at" = None →
                all_before a b docs).
Proof.
  intros Hty.
  destruct (sorted_reverse_spec created_at_key created_at_time (task D))
    as (docs & Hs & Hp & Hd & Hf).
  { eapply Forall_impl; [exact Hty|]. apply created_at_typed_dated. }
  exists docs. split; [|split; [done|split; [done|split; [done|split]]]].
  - unfold GET_tasks, list_tasks. run. by rewrite Hs.
  - intros a b Hab. by apply (descending_all_before created_at_time).
  - intros a b t Ha Ht Hb. apply (descending_all_before created_at_time).
    + done.
    + unfold created_at_time. rewrite Ha, Hb. exact Ht.
Qed.

(** ** Partial update *)

Lemma dump_field_lookup {A} (k' : string) (inj : A → value) (f : field A)
    (k : string) :
  (∀ a, inj a ≠ VNone) →
  (list_to_map (filter (λ kv, kv.2 ≠ VNone) (TaskUpdate.dump_field k' inj f))
     : gmap string value) !! k
  = if decide (k = k') then field_value inj f else None.
Proof.
  intros Hinj. destruct f as [| |a]; cbn [TaskUpdate.dump_field field_value].
  - by case_decide.
  - rewrite filter_cons. simpl. by case_decide.
  - rewrite filter_cons. cbn [snd]. rewrite decide_True by apply Hinj.
    cbn [list_to_map foldr filter list_filter uncurry fst snd].
    case_decide as Hk.
    + subst. apply lookup_insert_eq.
    + by rewrite lookup_insert_ne.
Qed.

(** The update set holds exactly the fields supplied with a non-null
    value. *)
Lemma update_set_lookup (p : TaskUpdate.t) (k : string) :
  update_set p !! k = supplied_non_null p k.
Proof.
  unfold update_set, TaskUpdate.model_dump_exclude_unset, supplied_non_null.
  rewrite !filter_app, !list_to_map_app, !lookup_union.
  rewrite !dump_field_lookup by done.
  repeat case_decide; subst; try done;
    repeat match goal with
      | |- context [field_value _ ?f] => destruct f; simpl
      end; done.
Qed.

Lemma update_set_empty (p : TaskUpdate.t) :
  no_values p → update_set p = ∅.
Proof.
  intros (Ht & Hc & Hp & Hd & Hn). apply map_empty. intros k.
  rewrite update_set_lookup. unfold supplied_non_null.
  destruct p as [t c pr dd n]; simpl in *.
  repeat case_decide; try done;
    match goal with
    | |- field_value _ ?f = None => by destruct f
    end.
Qed.

Lemma get_task_db task_id w : db (get_task task_id w).2 = db w.
Proof.
  unfold get_task. destruct (is_valid task_id); simpl; [|done]. run.
  destruct (db w) as [D|] eqn:Hdb; simpl; [|done].
  destruct (find_one _ _); simpl; done.
Qed.

(** C5: a partial update whose body supplies no field with a non-null
    value is the Get of the same identifier: same answer (400, 404 or the
    serialized record), same single read of the store, and the database is
    left as it was, so no field of any record changes and [updated_at] is
    not stamped. *)
Theorem update_task_without_values_is_get_task (now : datetime)
    (task_id : string) (payload : TaskUpdate.t) w :
  no_values payload →
  PATCH_task now task_id payload w = GET_task task_id w
  ∧ db (PATCH_task now task_id payload w).2 = db w.
Proof.
  intros Hp. apply update_set_empty in Hp.
  assert (update_task now task_id payload w = get_task task_id w) as Heq.
  { unfold update_task. destruct (is_valid task_id) eqn:Hv; simpl.
    - by rewrite decide_True.
    - unfold get_task. by rewrite Hv. }
  unfold PATCH_task, GET_task, route. rewrite Heq. split; [done|].
  pose proof (get_task_db task_id w) as Hdb.
  destruct (get_task task_id w) as [r w']. done.
Qed.

Lemma match_count_Some o c d :
  find_one o c = Some d → match_count o c = 1.
Proof. unfold match_count. by intros ->. Qed.

(** C4, amended: on an existing record, the update set that [PATCH]
    writes (it writes one when at least one field is supplied non-null) is
    exactly the supplied non-null fields plus [updated_at]; in the record
    afterwards a supplied non-null field has the supplied value as the
    store keeps it (a date-time in whole milliseconds) and every other
    field, left out or sent as [null], has its former value, apart from the
    [updated_at] stamp, which is what the store keeps of the clock reading.
    No field is removed and none becomes null.  (An empty string is a
    non-null value: it is written.) *)
Theorem update_task_writes_supplied_non_null_fields (now : datetime)
    (task_id : string) (payload : TaskUpdate.t) D cs url d0 :
  is_valid task_id = true →
  find_one (ObjectId task_id) (task D) = Some d0 →
  let o := ObjectId task_id in
  let r := PATCH_task now task_id payload (connected D cs url) in
  let written := <["updated_at" := VDate now]> (update_set payload) in
  (∀ k, update_set payload !! k = supplied_non_null payload k)
  ∧ calls r.2
    = cs ++ (if decide (update_set payload = ∅) then []
             else [UpdateOne o written]) ++ [FindOne o]
  ∧ ∃ c1 d1,
      records r.2 = Some c1
      ∧ find_one o c1 = Some d1
      ∧ (∀ o', o' ≠ o → find_one o' c1 = find_one o' (task D))
      ∧ r.1 = mk_response 200 (Json (serialize_task (Some d1)))
      ∧ (∀ k, fields d1 !! k
              = match supplied_non_null payload k with
                | Some v => Some (bson_value v)
                | None =>
                    if decide (k = "updated_at" ∧ update_set payload ≠ ∅)
                    then Some (VDate (bson_datetime now))
                    else fields d0 !! k
                end)
      ∧ (∀ k, is_Some (fields d0 !! k) → is_Some (fields d1 !! k))
      ∧ (∀ k, fields d1 !! k = Some VNone → fields d0 !! k = Some VNone).
Proof.
  intros Hv Hd0 o r written. split; [apply update_set_lookup|].
  assert (∀ v, supplied_non_null payload "updated_at" ≠ Some v) as Hupd.
  { intros v. unfold supplied_non_null. by repeat case_decide. }
  assert (∀ k v, supplied_non_null payload k = Some v → v ≠ VNone) as Hnn.
  { intros k v. unfold supplied_non_null.
    repeat case_decide; try done;
      match goal with
      | |- field_value _ ?f = _ → _ => destruct f; simpl; by intros [= <-]
      end. }
  subst r o. unfold PATCH_task, update_task. rewrite Hv. simpl.
  destruct (decide (update_set payload = ∅)) as [He|Hne].
  - unfold get_task. rewrite Hv. run. rewrite Hd0. simpl.
    split; [done|]. exists (task D), d0.
    split; [done|]. split; [done|]. split; [done|]. split; [done|].
    assert (∀ k, supplied_non_null payload k = None) as Hnone.
    { intros k. by rewrite <- update_set_lookup, He. }
    split; [|split; [done|done]].
    intros k. rewrite Hnone. case_decide as Hk; [|done]. by destruct Hk.
  - run. rewrite (match_count_Some _ _ _ Hd0). simpl.
    rewrite find_one_update_one, Hd0. simpl. fold written.
    split; [by rewrite <- app_assoc|]. exists (update_one (ObjectId task_id) written (task D)),
      (set_fields written d0).
    split; [done|]. split; [by rewrite find_one_update_one, Hd0|].
    assert (∀ k, fields (set_fields written d0) !! k
                 = match supplied_non_null payload k with
                   | Some v => Some (bson_value v)
                   | None =>
                       if decide (k = "updated_at" ∧ update_set payload ≠ ∅)
                       then Some (VDate (bson_datetime now))
                       else fields d0 !! k
                   end) as Hfields.
    { intros k. rewrite set_fields_lookup. unfold written.
      destruct (decide (k = "updated_at")) as [->|Hk].
      - rewrite lookup_insert_eq.
        destruct (supplied_non_null payload "updated_at") as [v|] eqn:Hs;
          [by destruct (Hupd v)|].
        by rewrite decide_True.
      - rewrite lookup_insert_ne by done. rewrite update_set_lookup.
        destruct (supplied_non_null payload k) as [v|] eqn:Hs; [done|].
        by rewrite decide_False by (by intros []). }
    split; [|split; [done|split; [exact Hfields|split]]].
    + intros o' Ho'. clear -Ho'. induction (task D) as [|x c IH]; [done|].
      simpl. case_decide as Hx; simpl.
      * rewrite !decide_False; [done | congruence | congruence].
      * case_decide; [done | exact IH].
    + intros k [v Hk]. rewrite Hfields.
      destruct (supplied_non_null payload k); [eauto|].
      destruct (decide _); [eauto | rewrite Hk; eauto].
    + intros k. rewrite Hfields.
      destruct (supplied_non_null payload k) as [v|] eqn:Hs.
      * intros [= Hv']. destruct v; try done. by destruct (Hnn k VNone Hs).
      * destruct (decide _); done.
Qed.

(** ** Toggle *)

Lemma toggle_set_lookup (b : bool) (now : datetime) :
  toggle_set b now !! "completed" = Some (VBool b)
  ∧ toggle_set b now !! "updated_at" = Some (VDate now)
  ∧ toggle_set b now !! "created_at" = None.
Proof. unfold toggle_set. by simplify_map_eq. Qed.

Lemma toggled_fields (b : bool) (now : datetime) d :
  let d' := set_fields (toggle_set b now) d in
  fields d' !! "completed" = Some (VBool b)
  ∧ fields d' !! "updated_at" = Some (VDate (bson_datetime now))
  ∧ completed_state d' = b.
Proof.
  destruct (toggle_set_lookup b now) as (Hc & Hu & _). cbv zeta.
  unfold completed_state. rewrite !set_fields_lookup, Hc, Hu. done.
Qed.

(** One toggle of an existing record: three calls reach the store, the
    record is rewritten with the flipped flag and the clock reading. *)
Lemma toggle_task_existing (now : datetime) (task_id : string) D cs url d0 :
  is_valid task_id = true →
  find_one (ObjectId task_id) (task D) = Some d0 →
  toggle_task now task_id (connected D cs url)
  = (Return (serialize_task
               (Some (set_fields
                        (toggle_set (negb (completed_state d0)) now) d0))),
     connected
       (with_task D
          (update_one (ObjectId task_id)
             (toggle_set (negb (completed_state d0)) now) (task D)))
       (cs ++ [FindOne (ObjectId task_id);
               UpdateOne (ObjectId task_id)
                 (toggle_set (negb (completed_state d0)) now);
               FindOne (ObjectId task_id)]) url).
Proof.
  intros Hv Hd0. unfold toggle_task. rewrite Hv. run.
  rewrite Hd0. simpl. rewrite find_one_update_one, Hd0. simpl.
  by rewrite <- !app_assoc.
Qed.

(** C10: toggling an existing record writes
    [completed = not bool(doc.get("completed", False))]; a record that has
    no [completed] entry, or a falsy one, gets [completed = True]. *)
Theorem toggle_task_negates_truthiness (now : datetime) (task_id : string)
    D cs url d0 :
  is_valid task_id = true →
  find_one (ObjectId task_id) (task D) = Some d0 →
  let o := ObjectId task_id in
  let r := POST_toggle now task_id (connected D cs url) in
  let new_val :=
    negb (truthy (default (VBool false) (fields d0 !! "completed"))) in
  UpdateOne o (toggle_set new_val now) ∈ calls r.2
  ∧ ∃ c1 d1,
      records r.2 = Some c1
      ∧ find_one o c1 = Some d1
      ∧ r.1 = mk_response 200 (Json (serialize_task (Some d1)))
      ∧ fields d1 !! "completed" = Some (VBool new_val)
      ∧ (fields d0 !! "completed" = None
         ∨ (∃ v, fields d0 !! "completed" = Some v ∧ truthy v = false) →
         fields d1 !! "completed" = Some (VBool true)).
Proof.
  intros Hv Hd0 o r new_val. subst r o. unfold POST_toggle, route.
  set (o := ObjectId task_id) in *.
  rewrite (toggle_task_existing now task_id D cs url d0 Hv Hd0).
  change (negb (completed_state d0)) with new_val. simpl.
  split. { rewrite !elem_of_app, !elem_of_cons. auto. }
  exists (update_one o (toggle_set new_val now) (task D)),
    (set_fields (toggle_set new_val now) d0).
  split; [done|]. split; [by rewrite find_one_update_one, Hd0|].
  split; [done|].
  destruct (toggled_fields new_val now d0) as (Hc & _ & _).
  split; [exact Hc|]. intros Hfalsy. rewrite Hc. do 2 f_equal.
  subst new_val. destruct Hfalsy as [-> | (v & -> & Hf)]; simpl; [done|].
  by rewrite Hf.
Qed.

(** C7: toggling an existing task twice brings its completion flag back:
    the state the code reads ([bool(doc.get("completed", False))]) is the
    original one, and a stored boolean is the original boolean.  Each
    toggle stamps [updated_at] with its clock reading, which the store
    keeps in whole milliseconds, so when the clock does not go back (an
    earlier stamp is no later than the first reading, the first reading no
    later than the second) no stamp is earlier than the one before: the
    second is no earlier than the first, and the first no earlier than a
    former stamp, which is in whole milliseconds as every stamp of the
    store is. *)
Theorem toggle_task_twice (now1 now2 : datetime) (task_id : string)
    D cs url d0 :
  is_valid task_id = true →
  find_one (ObjectId task_id) (task D) = Some d0 →
  (∀ p, fields d0 !! "updated_at" = Some (VDate p) → (p ≤ now1)%N) →
  (now1 ≤ now2)%N →
  let o := ObjectId task_id in
  let r1 := POST_toggle now1 task_id (connected D cs url) in
  let r2 := POST_toggle now2 task_id r1.2 in
  ∃ c1 d1 c2 d2,
    records r1.2 = Some c1 ∧ find_one o c1 = Some d1
    ∧ records r2.2 = Some c2 ∧ find_one o c2 = Some d2
    ∧ r1.1 = mk_response 200 (Json (serialize_task (Some d1)))
    ∧ r2.1 = mk_response 200 (Json (serialize_task (Some d2)))
    ∧ completed_state d1 = negb (completed_state d0)
    ∧ completed_state d2 = completed_state d0
    ∧ (∀ b, fields d0 !! "completed" = Some (VBool b) →
            fields d2 !! "completed" = Some (VBool b))
    ∧ ∃ t1 t2,
        fields d1 !! "updated_at" = Some (VDate t1)
        ∧ fields d2 !! "updated_at" = Some (VDate t2)
        ∧ (∀ p, fields d0 !! "updated_at" = Some (VDate p) →
                (bson_datetime p ≤ t1)%N
                ∧ (bson_datetime p = p → (p ≤ t1)%N))
        ∧ (t1 ≤ t2)%N.
Proof.
  intros Hv Hd0 Hp Hnow o r1 r2. subst r1 r2 o. unfold POST_toggle, route.
  rewrite (toggle_task_existing now1 task_id D cs url d0 Hv Hd0).
  set (o := ObjectId task_id) in *.
  set (upd1 := toggle_set (negb (completed_state d0)) now1).
  set (d1 := set_fields upd1 d0).
  assert (find_one o (update_one o upd1 (task D)) = Some d1) as Hd1.
  { by rewrite find_one_update_one, Hd0. }
  cbn [snd fst].
  rewrite (toggle_task_existing now2 task_id
             (with_task D (update_one o upd1 (task D))) _ url d1 Hv Hd1).
  fold o. set (upd2 := toggle_set (negb (completed_state d1)) now2).
  set (d2 := set_fields upd2 d1). cbn [snd fst].
  destruct (toggled_fields (negb (completed_state d0)) now1 d0)
    as (Hc1 & Hu1 & Hs1).
  destruct (toggled_fields (negb (completed_state d1)) now2 d1)
    as (Hc2 & Hu2 & Hs2).
  fold upd1 d1 in Hc1, Hu1, Hs1. fold upd2 d2 in Hc2, Hu2, Hs2.
  exists (update_one o upd1 (task D)), d1,
    (update_one o upd2 (update_one o upd1 (task D))), d2.
  split; [done|]. split; [done|]. split; [done|].
  split. { by rewrite find_one_update_one, Hd1. }
  split; [done|]. split; [done|]. split; [done|].
  split. { by rewrite Hs2, Hs1, negb_involutive. }
  split.
  - intros b Hb. rewrite Hc2, Hs1. do 2 f_equal.
    unfold completed_state. rewrite Hb. simpl. apply negb_involutive.
  - exists (bson_datetime now1), (bson_datetime now2).
    split; [done|]. split; [done|]. split.
    + intros p Hp0. pose proof (bson_datetime_mono _ _ (Hp p Hp0)) as Hle.
      split; [done|]. by intros <-.
    + by apply bson_datetime_mono.
Qed.

(** ** [created_at] is never rewritten *)

Lemma update_one_created_ats o upd c :
  upd !! "created_at" = None →
  Some ((λ d, (_id d, fields d !! "created_at")) <$> update_one o upd c)
  = Some ((λ d, (_id d, fields d !! "created_at")) <$> c).
Proof. intros Hupd. f_equal. by apply (update_one_frame "created_at"). Qed.

Lemma update_set_created_at (now : datetime) (p : TaskUpdate.t) :
  (<["updated_at" := VDate now]> (update_set p)) !! "created_at" = None.
Proof.
  rewrite lookup_insert_ne by done. rewrite update_set_lookup.
  unfold supplied_non_null. by repeat case_decide.
Qed.

Lemma update_task_created_ats (now : datetime) (task_id : string)
    (payload : TaskUpdate.t) w :
  created_ats (update_task now task_id payload w).2 = created_ats w.
Proof.
  unfold update_task. destruct (is_valid task_id) eqn:Hv; simpl; [|done].
  case_decide as He.
  - unfold created_ats, records. by rewrite get_task_db.
  - destruct w as [[D|] cs url]; run; [|done].
    pose proof (update_set_created_at now payload) as Hc.
    destruct (decide _); simpl; unfold created_ats, records; simpl;
      by apply update_one_created_ats.
Qed.

Lemma toggle_task_created_ats (now : datetime) (task_id : string) w :
  created_ats (toggle_task now task_id w).2 = created_ats w.
Proof.
  unfold toggle_task. destruct (is_valid task_id) eqn:Hv; simpl; [|done].
  destruct w as [[D|] cs url]; run; [|done].
  destruct (find_one _ _) as [d0|]; simpl; [|done].
  destruct (toggle_set_lookup (negb (completed_state d0)) now)
    as (_ & _ & Hc).
  unfold created_ats, records. simpl. by apply update_one_created_ats.
Qed.

(** C6: creation stamps [created_at] with the clock reading; the update
    sets of the partial update and of the toggle have no [created_at] key,
    and neither handler changes the [created_at] entry of any record,
    whatever the identifier, the body and the state of the store. *)
Theorem created_at_is_immutable (now : datetime) (task_id : string)
    (payload : TaskUpdate.t) (new_val : bool) (new_id : oid)
    (b : CreateBody.t) w D cs url :
  (<["updated_at" := VDate now]> (update_set payload)) !! "created_at" = None
  ∧ toggle_set new_val now !! "created_at" = None
  ∧ created_ats (PATCH_task now task_id payload w).2 = created_ats w
  ∧ created_ats (POST_toggle now task_id w).2 = created_ats w
  ∧ created_ats (POST_tasks new_id now b (connected D cs url)).2
    = (λ l, l ++ [(new_id, Some (VDate now))])
        <$> created_ats (connected D cs url).
Proof.
  split; [apply update_set_created_at|].
  split; [apply toggle_set_lookup|].
  split; [|split].
  - pose proof (update_task_created_ats now task_id payload w) as Hu.
    unfold PATCH_task, route. by destruct (update_task _ _ _ _).
  - pose proof (toggle_task_created_ats now task_id w) as Ht.
    unfold POST_toggle, route. by destruct (toggle_task _ _ _).
  - unfold POST_tasks, create_task, created_ats. run.
    rewrite fmap_app. simpl. by rewrite lookup_insert_eq.
Qed.

(** ** Deletion *)

(** C8: deleting by a well-formed identifier that a record carries
    removes that record and no other, and the route answers 204 with no
    body: the dict the function returns is not sent under this status. *)
Theorem delete_task_existing (task_id : string) D cs url d0 :
  is_valid task_id = true →
  find_one (ObjectId task_id) (task D) = Some d0 →
  let o := ObjectId task_id in
  let w := connected D cs url in
  (delete_task task_id w).1 = Return {[ "ok" := VBool true ]}
  ∧ DELETE_task task_id w
    = (mk_response 204 NoBody,
       connected (with_task D (delete_one o (task D)))
         (cs ++ [DeleteOne o]) url)
  ∧ task D ≡ₚ d0 :: delete_one o (task D)
  ∧ (unique_ids (task D) → find_one o (delete_one o (task D)) = None).
Proof.
  intros Hv Hd0 o w. subst o w.
  assert (delete_task task_id (connected D cs url)
          = (Return {[ "ok" := VBool true ]},
             connected (with_task D (delete_one (ObjectId task_id) (task D)))
               (cs ++ [DeleteOne (ObjectId task_id)]) url)) as Hdel.
  { unfold delete_task. rewrite Hv. run.
    by rewrite (match_count_Some _ _ _ Hd0). }
  split; [by rewrite Hdel|]. split; [|split].
  - unfold DELETE_task, route. by rewrite Hdel.
  - by apply delete_one_Some.
  - apply find_one_delete_one.
Qed.

(** ** Diagnostics *)

Lemma str_take_length (n : nat) (s : string) :
  (String.length (str_take n s) ≤ n)%nat.
Proof.
  revert s. induction n as [|n IH]; intros [|c s].
  - change (str_take 0 "") with "". simpl. lia.
  - change (str_take 0 (String c s)) with "". simpl. lia.
  - change (str_take (S n) "") with "". simpl. lia.
  - change (str_take (S n) (String c s)) with (String c (str_take n s)).
    simpl. pose proof (IH s). lia.
Qed.

(** C9: the diagnostics route always answers 200 with a payload and
    leaves the database as it was.  When [list_collection_names] raises,
    the text of the exception, cut to at most 50 characters, is reported
    in the [database] field; the [collections] field never has more than
    10 names (the first 10 the store gave). *)
Theorem test_database_always_200 w :
  ∃ diag w',
    GET_test w = (mk_response 200 (Json diag), w')
    ∧ db w' = db w
    ∧ (length (collections diag) ≤ 10)%nat
    ∧ (∀ D e, db w = Some D → list_collection_names D = inl e →
         database diag
           = ("⚠️  Connected but Error: " ++ str_take 50 e)%string
         ∧ (String.length (str_take 50 e) ≤ 50)%nat
         ∧ collections diag = [])
    ∧ (∀ D names, db w = Some D → list_collection_names D = inr names →
         collections diag = take 10 names).
Proof.
  unfold GET_test, route, test_database.
  destruct w as [[D|] cs url]; simpl.
  - destruct (list_collection_names D) as [e|names] eqn:Hl; simpl.
    + do 2 eexists. split; [done|]. simpl. split; [done|]. split; [lia|].
      split.
      * intros D' e' [= <-]. rewrite Hl. intros [= <-].
        split; [done|]. split; [apply str_take_length | done].
      * intros D' names [= <-]. by rewrite Hl.
    + do 2 eexists. split; [done|]. simpl. split; [done|].
      split; [rewrite length_take; lia|]. split.
      * intros D' e' [= <-]. by rewrite Hl.
      * intros D' names' [= <-]. rewrite Hl. by intros [= <-].
  - do 2 eexists. split; [done|]. simpl. split; [done|]. split; [lia|].
    split; done.
Qed.

End Properties.

(** * The properties at sample inputs *)

(** C1 at the malformed identifier ["nope"] and at an identifier no record
    of the store carries. *)
Lemma invalid_id_is_400_absent_id_is_404_witness :
  DELETE_task "nope" (store [doc_a])
    = (mk_response 400 (Detail "Invalid task id"), store [doc_a])
  ∧ (GET_task id_c (store [doc_a])).1
    = mk_response 404 (Detail "Task not found").
Proof.
  split.
  - apply (invalid_id_is_400_absent_id_is_404 0%N "nope" body_empty
             (store [doc_a]) (DELETE_task "nope")).
    + unfold id_routes. do 3 right. left.
    + reflexivity.
  - refine (proj1 (proj2 (invalid_id_is_400_absent_id_is_404 0%N id_c
                            body_empty (store [doc_a]) (GET_task id_c) _)
                     eq_refl _ _ _ eq_refl eq_refl)).
    unfold id_routes. left.
Defined.

(** C2 at a body with only a title. *)
Lemma create_task_defaults_witness :
  Task.priority
    (new_task (TaskCreate.validate (CreateBody.mk "Buy gifts" Unset Unset Unset)))
  = "medium".
Proof.
  refine (proj1 (proj2 (create_task_defaults id_c 0%N
                          (CreateBody.mk "Buy gifts" Unset Unset Unset)
                          (mk_Database None (inr []) []) [] None)) _).
  left. exact I.
Defined.

(** C3 at a store of three records, one of them without [created_at]. *)
Lemma list_tasks_sorted_by_created_at_desc_witness :
  Forall created_at_typed [doc_a; doc_bare; doc_b]
  ∧ ∃ docs,
      (GET_tasks (store [doc_a; doc_bare; doc_b])).1
        = mk_response 200 (Json ((λ d, serialize_task (Some d)) <$> docs))
      ∧ docs ≡ₚ [doc_a; doc_bare; doc_b]
      ∧ all_before doc_b doc_a docs
      ∧ all_before doc_a doc_bare docs.
Proof.
  assert (Forall created_at_typed [doc_a; doc_bare; doc_b]) as Hty.
  { repeat constructor; intros v; vm_compute; intros [= <-]; eauto. }
  split; [exact Hty|].
  destruct (list_tasks_sorted_by_created_at_desc
              (mk_Database (Some "xmas") (inr ["task"])
                 [doc_a; doc_bare; doc_b])
              [] (Some "mongodb://x") Hty)
    as (docs & Hr & Hp & _ & _ & Hlt & Hbare).
  exists docs. split; [exact Hr|]. split; [exact Hp|]. split.
  - apply Hlt. vm_compute. reflexivity.
  - apply (Hbare doc_a doc_bare 100%N); [reflexivity | | reflexivity].
    vm_compute. reflexivity.
Defined.

(** C3 as stated fails: a record without [created_at] stored before a
    record stamped [datetime.min] is listed before it. *)
Lemma list_tasks_lacking_before_dated :
  fields doc_bare !! "created_at" = None
  ∧ fields doc_min !! "created_at" = Some (VDate datetime_min)
  ∧ (GET_tasks (store [doc_bare; doc_min])).1
    = mk_response 200
        (Json [serialize_task (Some doc_bare); serialize_task (Some doc_min)])
  ∧ serialize_task (Some doc_bare) !! "created_at" = None
  ∧ serialize_task (Some doc_min) !! "created_at" = Some (VStr "0").
Proof. repeat split; vm_compute; reflexivity. Qed.

(** Without the typing of [created_at] the listing can fail: a text in
    [created_at] next to a record that sorts by [datetime.min] is not
    ordered, and the [TypeError] surfaces as a server fault. *)
Example list_tasks_untyped_created_at :
  (GET_tasks
     (store [doc_bare;
             mk_document id_a {[ "created_at" := VStr "yesterday" ]}])).1
  = mk_response 500 (Detail "Internal Server Error").
Proof. vm_compute. reflexivity. Qed.

(** C4 at a body that sets the notes of a record to the empty string and
    its due date to a time with microseconds, at a clock reading with
    microseconds. *)
Lemma update_task_writes_supplied_non_null_fields_witness :
  ∃ c1 d1,
    records (PATCH_task 300250%N id_a
               (TaskUpdate.mk Unset Null Unset (Val 500750%N) (Val ""))
               (store [doc_a])).2 = Some c1
    ∧ find_one (ObjectId id_a) c1 = Some d1
    ∧ fields d1 !! "notes" = Some (VStr "")
    ∧ fields d1 !! "completed" = Some (VBool false)
    ∧ fields d1 !! "due_date" = Some (VDate 500000%N)
    ∧ fields d1 !! "updated_at" = Some (VDate 300000%N).
Proof.
  assert (is_valid id_a = true) as Hv by (vm_compute; reflexivity).
  assert (find_one (ObjectId id_a) [doc_a] = Some doc_a) as Hd0
    by (vm_compute; reflexivity).
  destruct (update_task_writes_supplied_non_null_fields 300250%N id_a
              (TaskUpdate.mk Unset Null Unset (Val 500750%N) (Val ""))
              (mk_Database (Some "xmas") (inr ["task"]) [doc_a])
              [] (Some "mongodb://x") doc_a Hv Hd0)
    as (_ & _ & c1 & d1 & Hc & Hd & _ & _ & Hf & _).
  exists c1, d1. split; [exact Hc|]. split; [exact Hd|].
  rewrite !Hf. repeat split; vm_compute; reflexivity.
Defined.

(** C4 as stated fails: a [PATCH] that sends [notes] as the empty string
    clears the notes of the record. *)
Lemma update_task_clears_notes_to_empty :
  fields doc_a !! "notes" = Some (VStr "wrap them")
  ∧ fmap (M := list) (λ d, fields d !! "notes")
      <$> records (PATCH_task 300%N id_a
                     (TaskUpdate.mk Unset Unset Unset Unset (Val ""))
                     (store [doc_a])).2
    = Some [Some (VStr "")].
Proof. split; vm_compute; reflexivity. Qed.

(** C5 at a body that sends [null] for the notes and nothing else. *)
Lemma update_task_without_values_is_get_task_witness :
  PATCH_task 300%N id_a (TaskUpdate.mk Unset Unset Unset Unset Null)
    (store [doc_a])
  = GET_task id_a (store [doc_a]).
Proof.
  refine (proj1 (update_task_without_values_is_get_task 300%N id_a
                   (TaskUpdate.mk Unset Unset Unset Unset Null)
                   (store [doc_a]) _)).
  repeat split.
Defined.

(** C7 at a task that was never mutated. *)
Lemma toggle_task_twice_witness :
  ∃ c2 d2,
    records (POST_toggle 400%N id_a
               (POST_toggle 300%N id_a (store [doc_a])).2).2 = Some c2
    ∧ find_one (ObjectId id_a) c2 = Some d2
    ∧ fields d2 !! "completed" = Some (VBool false).
Proof.
  assert (is_valid id_a = true) as Hv by (vm_compute; reflexivity).
  assert (find_one (ObjectId id_a) [doc_a] = Some doc_a) as Hd0
    by (vm_compute; reflexivity).
  destruct (toggle_task_twice 300%N 400%N id_a
              (mk_Database (Some "xmas") (inr ["task"]) [doc_a])
              [] (Some "mongodb://x") doc_a Hv Hd0)
    as (c1 & d1 & c2 & d2 & _ & _ & Hc2 & Hd2 & _ & _ & _ & _ & Hb & _).
  - intros p. vm_compute. discriminate.
  - vm_compute. discriminate.
  - exists c2, d2. split; [exact Hc2|]. split; [exact Hd2|].
    apply Hb. vm_compute. reflexivity.
Defined.

(** C8 at the only record of a store. *)
Lemma delete_task_existing_witness :
  DELETE_task id_a (store [doc_a])
  = (mk_response 204 NoBody,
     connected (mk_Database (Some "xmas") (inr ["task"]) [])
       [DeleteOne id_a] (Some "mongodb://x")).
Proof.
  assert (is_valid id_a = true) as Hv by (vm_compute; reflexivity).
  assert (find_one (ObjectId id_a) [doc_a] = Some doc_a) as Hd0
    by (vm_compute; reflexivity).
  exact (proj1 (proj2 (delete_task_existing id_a
                         (mk_Database (Some "xmas") (inr ["task"]) [doc_a])
                         [] (Some "mongodb://x") doc_a Hv Hd0))).
Defined.

(** C9 at a store whose [list_collection_names] raises. *)
Lemma test_database_always_200_witness :
  ∃ diag w',
    GET_test (connected (mk_Database (Some "xmas") (inl "timed out") [doc_a])
                [] None)
    = (mk_response 200 (Json diag), w')
    ∧ database diag = "⚠️  Connected but Error: timed out".
Proof.
  destruct (test_database_always_200
              (connected
                 (mk_Database (Some "xmas") (inl "timed out") [doc_a])
                 [] None))
    as (diag & w' & Hr & _ & _ & He & _).
  exists diag, w'. split; [exact Hr|].
  exact (proj1 (He _ _ eq_refl eq_refl)).
Defined.

(** C10 at a record that has no [completed] entry. *)
Lemma toggle_task_negates_truthiness_witness :
  ∃ c1 d1,
    records (POST_toggle 300%N id_c (store [doc_bare])).2 = Some c1
    ∧ find_one (ObjectId id_c) c1 = Some d1
    ∧ fields d1 !! "completed" = Some (VBool true).
Proof.
  assert (is_valid id_c = true) as Hv by (vm_compute; reflexivity).
  assert (find_one (ObjectId id_c) [doc_bare] = Some doc_bare) as Hd0
    by (vm_compute; reflexivity).
  destruct (toggle_task_negates_truthiness 300%N id_c
              (mk_Database (Some "xmas") (inr ["task"]) [doc_bare])
              [] (Some "mongodb://x") doc_bare Hv Hd0)
    as (_ & c1 & d1 & Hc & Hd & _ & _ & Ht).
  exists c1, d1. split; [exact Hc|]. split; [exact Hd|].
  apply Ht. left. reflexivity.
Defined.

(** The scenario of the specification: create, update, toggle, delete, get. *)
Example scenario :
  let r1 := POST_tasks id_a 100%N
              (CreateBody.mk "Buy gifts" Unset Unset Unset) (store []) in
  let r2 := PATCH_task 200750%N id_a
              (TaskUpdate.mk Unset (Val true) Unset Unset Unset) r1.2 in
  let r3 := POST_toggle 300250%N id_a r2.2 in
  let r4 := DELETE_task id_a r3.2 in
  let r5 := GET_task id_a r4.2 in
  status r1.1 = 201%Z
  ∧ json_field r1.1 "id" = Some (VStr id_a)
  ∧ json_field r1.1 "title" = Some (VStr "Buy gifts")
  ∧ json_field r1.1 "completed" = Some (VBool false)
  ∧ json_field r1.1 "priority" = Some (VStr "medium")
  ∧ json_field r1.1 "updated_at" = None
  ∧ status r2.1 = 200%Z
  ∧ json_field r2.1 "completed" = Some (VBool true)
  ∧ json_field r2.1 "updated_at" = Some (VStr "200000")
  ∧ json_field r2.1 "created_at" = Some (VStr "100")
  ∧ status r3.1 = 200%Z
  ∧ json_field r3.1 "completed" = Some (VBool false)
  ∧ json_field r3.1 "updated_at" = Some (VStr "300000")
  ∧ r4.1 = mk_response 204 NoBody
  ∧ r5.1 = mk_response 404 (Detail "Task not found").
Proof. vm_compute. repeat split; reflexivity. Qed.

(** * Further properties of the handlers *)

Section Sorting_more.
Context {A : Type} (key : A → value) (time : A → datetime).

Lemma insert_desc_Return (x : A) (l l' : list A) :
  insert_desc key x l = Return l' → l' ≡ₚ x :: l.
Proof.
  revert l'. induction l as [|y l IH]; intros l'; simpl.
  - by intros [= <-].
  - destruct (py_lt (key x) (key y)) as [[]|]; [| by intros [= <-] | done].
    destruct (insert_desc key x l) as [l0|e]; simpl; [|done].
    intros [= <-]. rewrite (IH l0 eq_refl). apply Permutation_swap.
Qed.

(** Whenever [sorted] returns, it returns a permutation, whatever the keys. *)
Lemma sorted_reverse_Return (l l' : list A) :
  sorted_reverse key l = Return l' → l' ≡ₚ l.
Proof.
  revert l'. induction l as [|x l IH]; intros l'; simpl.
  - by intros [= <-].
  - destruct (sorted_reverse key l) as [l0|e]; simpl; [|done].
    intros Hi. apply insert_desc_Return in Hi. by rewrite Hi, (IH l0 eq_refl).
Qed.

Lemma insert_desc_below (x : A) (l : list A) :
  dated key time x → Forall (dated key time) l →
  Forall (λ y, (time x < time y)%N) l →
  insert_desc key x l = Return (l ++ [x]).
Proof.
  intros Hx. induction l as [|y l IH]; intros Hk Hlt; [done|].
  apply Forall_cons in Hk as [Hy Hk]. apply Forall_cons in Hlt as [Hxy Hlt].
  simpl. rewrite Hx, Hy. simpl.
  destruct (N.ltb_spec (time x) (time y)) as [_|Hge]; [|lia].
  by rewrite (IH Hk Hlt).
Qed.

(** A list whose times strictly ascend is returned reversed. *)
Lemma sorted_reverse_ascending (l : list A) :
  Forall (dated key time) l → StronglySorted (ascending time) l →
  sorted_reverse key l = Return (reverse l).
Proof.
  induction l as [|x l IH]; intros Hk Hl; [done|].
  apply Forall_cons in Hk as [Hx Hk].
  apply StronglySorted_inv in Hl as [Hl Hlt].
  simpl. rewrite (IH Hk Hl). simpl. rewrite reverse_cons.
  apply insert_desc_below; [done | by apply Forall_reverse |].
  by apply Forall_reverse.
Qed.
End Sorting_more.

Section More.
Context {oid : Type} `{ObjectIdLib oid} `{DatetimeLib}.
Implicit Types (o : oid) (d : @document oid) (c : list (@document oid)).
Implicit Types (w : @World oid) (upd : gmap string value).
Implicit Types (D : @Database oid) (cs : list (@store_call oid)).

(** ** Serialization *)

Lemma iso_field_lookup (k' : string) (m : gmap string value) (k : string) :
  iso_field k' m !! k
  = if decide (k = k') then iso_value <$> m !! k else m !! k.
Proof.
  unfold iso_field. destruct (decide (k = k')) as [->|Hk].
  - destruct (m !! k') as [[]|] eqn:Hm; rewrite ?lookup_insert_eq, ?Hm; done.
  - destruct (m !! k') as [[]|]; rewrite ?lookup_insert_ne; done.
Qed.

(** X1: [serialize_task] on a record sets ["id"] to [str] of its [_id],
    renders the date-times under [due_date], [created_at] and [updated_at]
    in ISO format and sends every other entry, and every other value under
    these three keys, as it is stored. *)
Theorem serialize_task_lookup d (k : string) :
  serialize_task (Some d) !! k
  = if decide (k = "id") then Some (VStr (str (_id d)))
    else if decide (k ∈ date_keys) then iso_value <$> fields d !! k
    else fields d !! k.
Proof.
  unfold serialize_task, date_keys. rewrite !iso_field_lookup.
  destruct (decide (k = "id")) as [->|Hid].
  - rewrite !decide_False by done. by rewrite lookup_insert_eq.
  - rewrite lookup_insert_ne by done.
    destruct (decide (k = "updated_at")) as [->|Hu].
    { rewrite !decide_False by done. rewrite decide_True; [done|].
      rewrite !elem_of_cons. auto. }
    destruct (decide (k = "created_at")) as [->|Hc].
    { rewrite !decide_False by done. rewrite decide_True; [done|].
      rewrite !elem_of_cons. auto. }
    destruct (decide (k = "due_date")) as [->|Hd].
    { rewrite decide_True; [done|]. rewrite !elem_of_cons. auto. }
    rewrite decide_False; [done|].
    rewrite !elem_of_cons, elem_of_nil. tauto.
Qed.

(** X2: the keys of a serialized record are the keys of the record and
    ["id"]: no entry is dropped, none but ["id"] is added, and no date-time
    is left under ["id"] or the three date keys. *)
Theorem serialize_task_keys d :
  dom (serialize_task (Some d)) = {["id"]} ∪ dom (fields d)
  ∧ ∀ k t, k = "id" ∨ k ∈ date_keys →
           serialize_task (Some d) !! k ≠ Some (VDate t).
Proof.
  split.
  - apply set_eq. intros k.
    rewrite elem_of_union, elem_of_singleton, !elem_of_dom.
    rewrite serialize_task_lookup.
    destruct (decide (k = "id")) as [->|Hid].
    + split; [by left | eauto].
    + destruct (decide (k ∈ date_keys)); rewrite ?fmap_is_Some; tauto.
  - intros k t Hk. rewrite serialize_task_lookup.
    destruct (decide (k = "id")); [done|].
    destruct Hk as [Hk|Hk]; [done|]. rewrite decide_True by done.
    by destruct (fields d !! k) as [[]|].
Qed.

(** ** Reading *)

Lemma get_task_found (task_id : string) D cs url d0 :
  is_valid task_id = true →
  find_one (ObjectId task_id) (task D) = Some d0 →
  get_task task_id (connected D cs url)
  = (Return (serialize_task (Some d0)),
     connected D (cs ++ [FindOne (ObjectId task_id)]) url).
Proof. intros Hv Hd0. unfold get_task. rewrite Hv. run. by rewrite Hd0. Qed.

(** X3: Get by a well-formed identifier answers 200 with the serialized
    record: the first record of the store that carries the identifier.  One
    [find_one] reaches the store and the database is as before. *)
Theorem get_task_existing (task_id : string) D cs url d0 :
  is_valid task_id = true →
  find_one (ObjectId task_id) (task D) = Some d0 →
  GET_task task_id (connected D cs url)
  = (mk_response 200 (Json (serialize_task (Some d0))),
     connected D (cs ++ [FindOne (ObjectId task_id)]) url)
  ∧ json_field (GET_task task_id (connected D cs url)).1 "id"
    = Some (VStr (str (ObjectId task_id))).
Proof.
  intros Hv Hd0. unfold GET_task, route.
  rewrite (get_task_found task_id D cs url d0 Hv Hd0). split; [done|].
  unfold json_field. simpl.
  change (serialize_task (Some d0) !! "id" = Some (VStr (str (ObjectId task_id)))).
  rewrite serialize_task_lookup, decide_True by done.
  by destruct (find_one_Some _ _ _ Hd0) as [-> _].
Qed.

Lemma list_tasks_db w : db (list_tasks w).2 = db w.
Proof.
  unfold list_tasks. run. destruct (db w) as [D|] eqn:Hdb; simpl; [|done].
  by destruct (sorted_reverse _ _).
Qed.

(** X4: the two reading routes of the task collection never change the
    database, whatever the identifier and the state of the store, also when
    they answer an error. *)
Theorem reading_routes_leave_db (task_id : string) w :
  db (GET_task task_id w).2 = db w ∧ db (GET_tasks w).2 = db w.
Proof.
  split.
  - pose proof (get_task_db task_id w) as Hg. unfold GET_task, route.
    by destruct (get_task task_id w).
  - pose proof (list_tasks_db w) as Hl. unfold GET_tasks, route.
    by destruct (list_tasks w).
Qed.

(** ** Listing *)

(** X5: whenever list-tasks answers 200, whatever the values stored under
    [created_at], its body is the serialization of a permutation of the
    records: no record is dropped or sent twice. *)
Theorem list_tasks_permutation D cs url out :
  (GET_tasks (connected D cs url)).1 = mk_response 200 (Json out) →
  ∃ docs, out = (λ d, serialize_task (Some d)) <$> docs ∧ docs ≡ₚ task D.
Proof.
  unfold GET_tasks, list_tasks. run.
  destruct (sorted_reverse created_at_key (task D)) as [docs|e] eqn:Hs; simpl.
  - intros [= <-]. exists docs. split; [done|].
    by apply (sorted_reverse_Return created_at_key).
  - by destruct e.
Qed.

(** X6: when the times the records sort by ([created_at], a date-time, or
    [datetime.min] without one) ascend strictly along the store, list-tasks
    answers the records in exactly the reverse of the store order: newest
    first. *)
Theorem list_tasks_reverses_ascending_store D cs url :
  Forall created_at_typed (task D) →
  StronglySorted (ascending created_at_time) (task D) →
  (GET_tasks (connected D cs url)).1
  = mk_response 200
      (Json ((λ d, serialize_task (Some d)) <$> reverse (task D))).
Proof.
  intros Hty Hasc. unfold GET_tasks, list_tasks. run.
  rewrite (sorted_reverse_ascending created_at_key created_at_time); [done| |done].
  eapply Forall_impl; [exact Hty|]. apply created_at_typed_dated.
Qed.

(** ** Mutations of an existing record *)

Lemma find_one_update_one_ne o o' upd c :
  o' ≠ o → find_one o' (update_one o upd c) = find_one o' c.
Proof.
  intros Ho'. induction c as [|x c IH]; [done|].
  simpl. case_decide as Hx; simpl.
  - rewrite !decide_False; [done | congruence | congruence].
  - case_decide; [done | exact IH].
Qed.

Lemma update_task_found (now : datetime) (task_id : string)
    (payload : TaskUpdate.t) D cs url d0 :
  is_valid task_id = true →
  find_one (ObjectId task_id) (task D) = Some d0 →
  update_set payload ≠ ∅ →
  update_task now task_id payload (connected D cs url)
  = (Return (serialize_task
               (Some (set_fields
                        (<["updated_at" := VDate now]> (update_set payload))
                        d0))),
     connected
       (with_task D
          (update_one (ObjectId task_id)
             (<["updated_at" := VDate now]> (update_set payload)) (task D)))
       (cs ++ [UpdateOne (ObjectId task_id)
                 (<["updated_at" := VDate now]> (update_set payload));
               FindOne (ObjectId task_id)]) url).
Proof.
  intros Hv Hd0 Hne. unfold update_task. rewrite Hv. simpl.
  rewrite decide_False by done. run.
  rewrite (match_count_Some _ _ _ Hd0). simpl.
  rewrite find_one_update_one, Hd0. simpl. by rewrite <- app_assoc.
Qed.

(** X7: read your writes.  After a partial update or a toggle of an
    existing record, a Get of the same identifier answers exactly what the
    mutation answered. *)
Theorem get_after_mutation (now : datetime) (task_id : string)
    (payload : TaskUpdate.t) D cs url d0 :
  is_valid task_id = true →
  find_one (ObjectId task_id) (task D) = Some d0 →
  (GET_task task_id (PATCH_task now task_id payload (connected D cs url)).2).1
  = (PATCH_task now task_id payload (connected D cs url)).1
  ∧ (GET_task task_id (POST_toggle now task_id (connected D cs url)).2).1
    = (POST_toggle now task_id (connected D cs url)).1.
Proof.
  intros Hv Hd0. split.
  - unfold PATCH_task, GET_task, route.
    destruct (decide (update_set payload = ∅)) as [He|Hne].
    + assert (update_task now task_id payload (connected D cs url)
              = get_task task_id (connected D cs url)) as ->.
      { unfold update_task. rewrite Hv. simpl. by rewrite decide_True. }
      rewrite (get_task_found task_id D cs url d0 Hv Hd0). cbn [fst snd].
      by rewrite (get_task_found task_id D _ url d0 Hv Hd0).
    + rewrite (update_task_found now task_id payload D cs url d0 Hv Hd0 Hne).
      cbn [fst snd].
      erewrite get_task_found; [done | done |].
      simpl. by rewrite find_one_update_one, Hd0.
  - unfold POST_toggle, GET_task, route.
    rewrite (toggle_task_existing now task_id D cs url d0 Hv Hd0).
    cbn [fst snd].
    erewrite get_task_found; [done | done |].
    simpl. by rewrite find_one_update_one, Hd0.
Qed.

(** X8: a toggle of an existing record writes [completed] and
    [updated_at] and nothing else: every other entry of the record, the
    other records and the number of records are as before. *)
Theorem toggle_task_frame (now : datetime) (task_id : string) D cs url d0 :
  is_valid task_id = true →
  find_one (ObjectId task_id) (task D) = Some d0 →
  ∃ c1 d1,
    records (POST_toggle now task_id (connected D cs url)).2 = Some c1
    ∧ find_one (ObjectId task_id) c1 = Some d1
    ∧ _id d1 = _id d0
    ∧ (∀ k, k ≠ "completed" → k ≠ "updated_at" →
            fields d1 !! k = fields d0 !! k)
    ∧ (∀ o', o' ≠ ObjectId task_id → find_one o' c1 = find_one o' (task D))
    ∧ length c1 = length (task D).
Proof.
  intros Hv Hd0. unfold POST_toggle, route.
  rewrite (toggle_task_existing now task_id D cs url d0 Hv Hd0).
  set (upd := toggle_set (negb (completed_state d0)) now).
  exists (update_one (ObjectId task_id) upd (task D)), (set_fields upd d0).
  split; [done|]. split; [by rewrite find_one_update_one, Hd0|].
  split; [done|]. split; [|split].
  - intros k Hc Hu. rewrite set_fields_lookup. unfold upd, toggle_set.
    rewrite lookup_insert_ne by done. by rewrite lookup_singleton_ne.
  - intros o' Ho'. by apply find_one_update_one_ne.
  - rewrite <- (length_fmap _id), update_one_ids. apply length_fmap.
Qed.

(** X9: the answer of a toggle of an existing record carries the
    identifier, the flipped flag and, as [updated_at], what the store keeps
    of the clock reading (whole milliseconds) in ISO format. *)
Theorem toggle_task_response (now : datetime) (task_id : string)
    D cs url d0 :
  is_valid task_id = true →
  find_one (ObjectId task_id) (task D) = Some d0 →
  let r := (POST_toggle now task_id (connected D cs url)).1 in
  status r = 200%Z
  ∧ json_field r "id" = Some (VStr (str (ObjectId task_id)))
  ∧ json_field r "completed" = Some (VBool (negb (completed_state d0)))
  ∧ json_field r "updated_at" = Some (VStr (isoformat (bson_datetime now))).
Proof.
  intros Hv Hd0 r. subst r. unfold POST_toggle, route.
  rewrite (toggle_task_existing now task_id D cs url d0 Hv Hd0).
  destruct (toggled_fields (negb (completed_state d0)) now d0)
    as (Hc & Hu & _).
  destruct (find_one_Some _ _ _ Hd0) as [Hid _].
  unfold json_field. cbn [fst body status respond].
  change (is_body_allowed_for_status_code 200) with true. cbv iota.
  split; [done|]. rewrite !serialize_task_lookup.
  split; [by rewrite decide_True by done; simpl; rewrite Hid|].
  split.
  - rewrite decide_False by done. rewrite decide_False; [exact Hc|].
    unfold date_keys. rewrite !elem_of_cons, elem_of_nil.
    intros [|[|[|]]]; done.
  - rewrite decide_False by done. rewrite decide_True.
    + by rewrite Hu.
    + unfold date_keys. rewrite !elem_of_cons. auto.
Qed.

Lemma supplied_non_null_key (p : TaskUpdate.t) (k : string) (v : value) :
  supplied_non_null p k = Some v →
  (k = "due_date" ∧ ∃ t, v = VDate t)
  ∨ (k ∈ ["title"; "completed"; "priority"; "notes"]
     ∧ iso_value v = v ∧ bson_value v = v).
Proof.
  unfold supplied_non_null. rewrite !elem_of_cons.
  destruct (decide (k = "title")) as [->|?].
  { destruct (TaskUpdate.title p); simpl; [done..|]. intros [= <-]. right. split; [auto 10 | done]. }
  destruct (decide (k = "completed")) as [->|?].
  { destruct (TaskUpdate.completed p); simpl; [done..|]. intros [= <-]. right. split; [auto 10 | done]. }
  destruct (decide (k = "priority")) as [->|?].
  { destruct (TaskUpdate.priority p); simpl; [done..|]. intros [= <-]. right. split; [auto 10 | done]. }
  destruct (decide (k = "due_date")) as [->|?].
  { destruct (TaskUpdate.due_date p); simpl; [done..|]. intros [= <-]. left. eauto. }
  destruct (decide (k = "notes")) as [->|?]; [|done].
  destruct (TaskUpdate.notes p); simpl; [done..|]. intros [= <-]. right. split; [auto 10 | done].
Qed.

(** X10: the answer of a partial update of an existing record carries
    every supplied non-null field with the supplied value as the store
    keeps it (a due date in whole milliseconds, in ISO format) and, when at
    least one is supplied, what the store keeps of the clock reading as
    [updated_at]. *)
Theorem update_task_response (now : datetime) (task_id : string)
    (payload : TaskUpdate.t) D cs url d0 :
  is_valid task_id = true →
  find_one (ObjectId task_id) (task D) = Some d0 →
  let r := (PATCH_task now task_id payload (connected D cs url)).1 in
  status r = 200%Z
  ∧ (∀ k v, supplied_non_null payload k = Some v →
        json_field r k = Some (iso_value (bson_value v))
        ∧ json_field r "updated_at"
          = Some (VStr (isoformat (bson_datetime now)))).
Proof.
  intros Hv Hd0 r. subst r. unfold PATCH_task, route.
  destruct (decide (update_set payload = ∅)) as [He|Hne].
  - assert (update_task now task_id payload (connected D cs url)
            = get_task task_id (connected D cs url)) as ->.
    { unfold update_task. rewrite Hv. simpl. by rewrite decide_True. }
    rewrite (get_task_found task_id D cs url d0 Hv Hd0).
    split; [done|]. intros k v Hk.
    rewrite <- update_set_lookup, He in Hk. done.
  - rewrite (update_task_found now task_id payload D cs url d0 Hv Hd0 Hne).
    split; [done|]. intros k v Hk.
    unfold json_field. cbn [fst body status respond].
    change (is_body_allowed_for_status_code 200) with true. cbv iota.
    rewrite !serialize_task_lookup. split.
    + rewrite set_fields_lookup.
      destruct (supplied_non_null_key payload k v Hk)
        as [[-> [t ->]] | [Hin [Hiso Hbson]]].
      * rewrite decide_False by done. rewrite decide_True
          by (unfold date_keys; rewrite !elem_of_cons; auto).
        rewrite lookup_insert_ne by done. by rewrite update_set_lookup, Hk.
      * rewrite !elem_of_cons, elem_of_nil in Hin.
        assert (k ≠ "id" ∧ k ≠ "updated_at" ∧ k ∉ date_keys) as (? & ? & ?).
        { unfold date_keys. rewrite !elem_of_cons, elem_of_nil.
          destruct Hin as [->|[->|[->|[->|[]]]]];
            (split; [done|]; split; [done|]; intros [|[|[|]]]; done). }
        rewrite !decide_False by done. rewrite lookup_insert_ne by done.
        by rewrite update_set_lookup, Hk, Hbson, Hiso.
    + rewrite decide_False by done. rewrite decide_True
        by (unfold date_keys; rewrite !elem_of_cons; auto).
      by rewrite set_fields_lookup, lookup_insert_eq.
Qed.

(** ** What the mutations never do *)

Lemma update_task_ids (now : datetime) (task_id : string)
    (payload : TaskUpdate.t) w :
  ids (update_task now task_id payload w).2 = ids w.
Proof.
  unfold update_task. destruct (is_valid task_id) eqn:Hv; simpl; [|done].
  case_decide as He.
  - unfold ids, records. by rewrite get_task_db.
  - destruct w as [[D|] cs url]; run; [|done].
    destruct (decide _); simpl; unfold ids, records; simpl;
      by rewrite update_one_ids.
Qed.

Lemma toggle_task_ids (now : datetime) (task_id : string) w :
  ids (toggle_task now task_id w).2 = ids w.
Proof.
  unfold toggle_task. destruct (is_valid task_id) eqn:Hv; simpl; [|done].
  destruct w as [[D|] cs url]; run; [|done].
  destruct (find_one _ _) as [d0|]; simpl; [|done].
  unfold ids, records. simpl. by rewrite update_one_ids.
Qed.

(** X11: the partial update and the toggle never add or remove a record:
    the identifiers of the store, in store order, are the same afterwards,
    whatever the identifier, the body and the state of the store (an update
    of an absent identifier does not insert). *)
Theorem mutations_keep_ids (now : datetime) (task_id : string)
    (payload : TaskUpdate.t) w :
  ids (PATCH_task now task_id payload w).2 = ids w
  ∧ ids (POST_toggle now task_id w).2 = ids w.
Proof.
  split.
  - pose proof (update_task_ids now task_id payload w) as Hu.
    unfold PATCH_task, route. by destruct (update_task _ _ _ _).
  - pose proof (toggle_task_ids now task_id w) as Ht.
    unfold POST_toggle, route. by destruct (toggle_task _ _ _).
Qed.

Lemma delete_one_sublist o c : delete_one o c `sublist_of` c.
Proof.
  induction c as [|x c IH]; simpl; [done|].
  case_decide; [by apply sublist_cons | by apply sublist_skip].
Qed.

Lemma delete_one_length o c :
  (length c ≤ S (length (delete_one o c)))%nat.
Proof.
  induction c as [|x c IH]; simpl; [lia|].
  case_decide; simpl; lia.
Qed.

Lemma find_one_delete_one_ne o o' c :
  o' ≠ o → find_one o' (delete_one o c) = find_one o' c.
Proof.
  intros Ho'. induction c as [|x c IH]; [done|].
  simpl. case_decide as Hx; simpl.
  - rewrite decide_False; [done | congruence].
  - case_decide; [done | exact IH].
Qed.

Lemma delete_task_records (task_id : string) D cs url :
  records (delete_task task_id (connected D cs url)).2
  = Some (if is_valid task_id then delete_one (ObjectId task_id) (task D)
          else task D).
Proof.
  unfold delete_task. destruct (is_valid task_id); simpl; [|done]. run.
  by destruct (decide _).
Qed.

(** X12: a delete removes at most one record and touches no other: the
    records afterwards are the former ones in the same order with at most
    one left out, and every record with another identifier is found as
    before. *)
Theorem delete_task_frame (task_id : string) D cs url :
  ∃ c',
    records (DELETE_task task_id (connected D cs url)).2 = Some c'
    ∧ c' `sublist_of` task D
    ∧ (length (task D) ≤ S (length c'))%nat
    ∧ ∀ o', o' ≠ ObjectId task_id → find_one o' c' = find_one o' (task D).
Proof.
  pose proof (delete_task_records task_id D cs url) as Hr.
  unfold DELETE_task, route. destruct (delete_task _ _) as [r w'].
  cbn [snd] in *. rewrite Hr. destruct (is_valid task_id).
  - eexists. split; [done|]. split; [apply delete_one_sublist|].
    split; [apply delete_one_length|]. intros o' Ho'.
    by apply find_one_delete_one_ne.
  - eexists. split; [done|]. split; [done|]. split; [lia | done].
Qed.

(** X13: each of the four routes that take a task id keeps the
    identifiers of the store unique. *)
Theorem id_routes_keep_unique_ids (now : datetime) (task_id : string)
    (payload : TaskUpdate.t) D cs url r :
  r ∈ id_routes now task_id payload →
  unique_ids (task D) →
  ∃ c', records (r (connected D cs url)).2 = Some c' ∧ unique_ids c'.
Proof.
  unfold id_routes. rewrite !elem_of_cons, elem_of_nil.
  intros [-> | [-> | [-> | [-> | []]]]] Hu.
  - exists (task D). split; [|done].
    pose proof (get_task_db task_id (connected D cs url)) as Hg.
    unfold GET_task, route, records. destruct (get_task _ _). simpl in *.
    by rewrite Hg.
  - pose proof (update_task_ids now task_id payload (connected D cs url))
      as Hi.
    unfold PATCH_task, route. destruct (update_task _ _ _ _) as [r w'].
    cbn [snd]. unfold ids in Hi. simpl in Hi.
    destruct (records w') as [c'|]; [|done].
    exists c'. split; [done|]. unfold unique_ids. simpl in Hi.
    injection Hi as ->. done.
  - pose proof (toggle_task_ids now task_id (connected D cs url)) as Hi.
    unfold POST_toggle, route. destruct (toggle_task _ _ _) as [r w'].
    cbn [snd]. unfold ids in Hi. simpl in Hi.
    destruct (records w') as [c'|]; [|done].
    exists c'. split; [done|]. unfold unique_ids. simpl in Hi.
    injection Hi as ->. done.
  - pose proof (delete_task_records task_id D cs url) as Hr.
    unfold DELETE_task, route. destruct (delete_task _ _) as [r w'].
    cbn [snd] in *. rewrite Hr. eexists. split; [done|].
    destruct (is_valid task_id); [|done].
    unfold unique_ids. eapply sublist_NoDup; [exact Hu|].
    apply fmap_sublist, delete_one_sublist.
Qed.

(** X14: once an existing task is deleted (identifiers being unique), a
    Get of its identifier answers 404, and so does a second delete, which
    leaves the records as the first delete left them. *)
Theorem deleted_task_is_gone (task_id : string) D cs url d0 :
  is_valid task_id = true →
  find_one (ObjectId task_id) (task D) = Some d0 →
  unique_ids (task D) →
  let w1 := (DELETE_task task_id (connected D cs url)).2 in
  (GET_task task_id w1).1 = mk_response 404 (Detail "Task not found")
  ∧ (DELETE_task task_id w1).1 = mk_response 404 (Detail "Task not found")
  ∧ records (DELETE_task task_id w1).2 = records w1.
Proof.
  intros Hv Hd0 Hu w1. subst w1.
  assert (delete_task task_id (connected D cs url)
          = (Return {[ "ok" := VBool true ]},
             connected (with_task D (delete_one (ObjectId task_id) (task D)))
               (cs ++ [DeleteOne (ObjectId task_id)]) url)) as Hdel.
  { unfold delete_task. rewrite Hv. run.
    by rewrite (match_count_Some _ _ _ Hd0). }
  pose proof (find_one_delete_one (ObjectId task_id) (task D) Hu) as Hgone.
  assert ((DELETE_task task_id (connected D cs url)).2
          = connected (with_task D (delete_one (ObjectId task_id) (task D)))
              (cs ++ [DeleteOne (ObjectId task_id)]) url) as ->.
  { unfold DELETE_task, route. by rewrite Hdel. }
  split; [|split].
  - unfold GET_task, route.
    destruct (get_task_absent task_id
                (with_task D (delete_one (ObjectId task_id) (task D)))
                (cs ++ [DeleteOne (ObjectId task_id)]) url Hv Hgone)
      as [Hr _].
    destruct (get_task task_id _) as [r w']. simpl in *. by subst r.
  - unfold DELETE_task, route, delete_task. rewrite Hv. run.
    by rewrite (proj2 (match_count_0 _ _) Hgone).
  - unfold DELETE_task, route, delete_task. rewrite Hv. run.
    rewrite (proj2 (match_count_0 _ _) Hgone). simpl.
    by rewrite delete_one_None.
Qed.

(** X15: while [db] is [None], each of the four routes that take a task id
    answers a server fault to a well-formed identifier ([db["task"]] raises
    and no handler catches it), and the world is left as it was. *)
Theorem id_routes_fault_without_db (now : datetime) (task_id : string)
    (payload : TaskUpdate.t) w r :
  r ∈ id_routes now task_id payload →
  db w = None →
  is_valid task_id = true →
  r w = (mk_response 500 (Detail "Internal Server Error"), w).
Proof.
  unfold id_routes. rewrite !elem_of_cons, elem_of_nil.
  intros [-> | [-> | [-> | [-> | []]]]] Hdb Hv.
  - unfold GET_task, route, get_task. rewrite Hv. run. by rewrite Hdb.
  - unfold PATCH_task, route, update_task. rewrite Hv. simpl.
    destruct (decide _).
    + unfold get_task. rewrite Hv. run. by rewrite Hdb.
    + run. by rewrite Hdb.
  - unfold POST_toggle, route, toggle_task. rewrite Hv. run. by rewrite Hdb.
  - unfold DELETE_task, route, delete_task. rewrite Hv. run. by rewrite Hdb.
Qed.

(** ** Diagnostics *)

(** X16: the diagnostics payload never carries the value its [database]
    field starts with; the field reads "Connected & Working" exactly when
    [db] is set and [list_collection_names] returned; the connection status
    is "Connected" exactly when [db] is set; and the store is reached once
    when [db] is set and not at all otherwise. *)
Theorem test_database_report w :
  ∃ diag w',
    GET_test w = (mk_response 200 (Json diag), w')
    ∧ database diag ≠ "❌ Not Available"
    ∧ (database diag = "✅ Connected & Working"
       ↔ ∃ D names, db w = Some D ∧ list_collection_names D = inr names)
    ∧ (connection_status diag = "Connected" ↔ is_Some (db w))
    ∧ calls w'
      = calls w ++ match db w with
                   | Some _ => [ListCollectionNames]
                   | None => []
                   end.
Proof.
  unfold GET_test, route, test_database.
  destruct w as [[D|] cs url]; simpl.
  - destruct (list_collection_names D) as [e|names] eqn:Hl; simpl.
    + do 2 eexists. split; [done|]. simpl. split; [done|]. split; [|split].
      * split; [done|]. intros (D' & names & [= <-] & Hn). congruence.
      * split; [eauto | done].
      * done.
    + do 2 eexists. split; [done|]. simpl. split; [done|]. split; [|split].
      * split; [eauto | done].
      * split; [eauto | done].
      * done.
  - do 2 eexists. split; [done|]. simpl. split; [done|]. split; [|split].
    + split; [done|]. by intros (D' & names & ? & _).
    + split; [done|]. by intros [? ?].
    + by rewrite app_nil_r.
Qed.

(** ** Creation *)

Lemma find_one_app_fresh o c d :
  find_one o c = None → _id d = o → find_one o (c ++ [d]) = Some d.
Proof.
  intros Hc Hd. induction c as [|x c IH]; simpl in *.
  - by rewrite decide_True.
  - case_decide; [done|]. by apply IH.
Qed.

Lemma task_dict_title (data : Task.t) :
  task_dict data !! "title" = Some (VStr (Task.title data)).
Proof.
  unfold task_dict.
  destruct (Task.due_date data), (Task.notes data); by simplify_map_eq.
Qed.

(** X17: when the store hands out an identifier that no record carries
    and that survives [ObjectId(str(...))], create-task answers 201 with
    the new record: its identifier, the title of the body,
    [completed = False] and the clock reading as [created_at]; a Get of the
    returned identifier then answers the same record. *)
Theorem create_task_then_get (new_id : oid) (now : datetime)
    (b : CreateBody.t) D cs url :
  ObjectId (str new_id) = new_id →
  is_valid (str new_id) = true →
  find_one new_id (task D) = None →
  let r := POST_tasks new_id now b (connected D cs url) in
  status r.1 = 201%Z
  ∧ json_field r.1 "id" = Some (VStr (str new_id))
  ∧ json_field r.1 "title" = Some (VStr (CreateBody.title b))
  ∧ json_field r.1 "completed" = Some (VBool false)
  ∧ json_field r.1 "created_at" = Some (VStr (isoformat now))
  ∧ body (GET_task (str new_id) r.2).1 = body r.1.
Proof.
  intros Hrt Hv Hfresh r. subst r.
  set (doc := mk_document new_id
                (<["created_at" := VDate now]>
                   (task_dict (new_task (TaskCreate.validate b))))).
  assert (find_one new_id (task D ++ [doc]) = Some doc) as Hdoc.
  { by apply find_one_app_fresh. }
  assert (create_task new_id now (TaskCreate.validate b) (connected D cs url)
          = (Return (serialize_task (Some doc)),
             connected (with_task D (task D ++ [doc]))
               (cs ++ [InsertOne doc; FindOne new_id]) url)) as Hc.
  { unfold create_task. run. rewrite Hrt. fold doc. rewrite Hdoc. simpl.
    by rewrite <- app_assoc. }
  unfold POST_tasks, route. rewrite Hc. cbn [fst snd].
  unfold json_field. cbn [body status respond].
  change (is_body_allowed_for_status_code 201) with true. cbv iota.
  destruct (task_dict_lookup (new_task (TaskCreate.validate b)))
    as (Hcomp & _ & _ & _).
  pose proof (task_dict_title (new_task (TaskCreate.validate b))) as Ht.
  rewrite !serialize_task_lookup.
  split; [done|]. split; [by rewrite decide_True|].
  assert (∀ k, k ∈ date_keys ↔ k = "due_date" ∨ k = "created_at"
                               ∨ k = "updated_at") as Hdk.
  { intros k. unfold date_keys. rewrite !elem_of_cons, elem_of_nil. tauto. }
  split; [|split; [|split]].
  - rewrite !decide_False; [| rewrite Hdk; by intros [|[|]] | done].
    simpl. by rewrite lookup_insert_ne.
  - rewrite !decide_False; [| rewrite Hdk; by intros [|[|]] | done].
    simpl. by rewrite lookup_insert_ne.
  - rewrite decide_False by done. rewrite decide_True by (rewrite Hdk; auto).
    simpl. by rewrite lookup_insert_eq.
  - unfold GET_task, route.
    rewrite (get_task_found (str new_id) (with_task D (task D ++ [doc])) _
               url doc Hv); [done|].
    by rewrite Hrt.
Qed.

End More.

(** * The further properties at sample inputs *)

Lemma serialize_task_keys_witness :
  serialize_task (Some doc_a) !! "created_at" ≠ Some (VDate 100%N).
Proof.
  apply (proj2 (serialize_task_keys doc_a) "created_at" 100%N).
  right. unfold date_keys. right. left.
Defined.

Lemma get_task_existing_witness :
  GET_task id_a (store [doc_a; doc_b])
  = (mk_response 200 (Json (serialize_task (Some doc_a))),
     connected (mk_Database (Some "xmas") (inr ["task"]) [doc_a; doc_b])
       [FindOne id_a] (Some "mongodb://x")).
Proof.
  assert (is_valid id_a = true) as Hv by (vm_compute; reflexivity).
  assert (find_one (ObjectId id_a) [doc_a; doc_b] = Some doc_a) as Hd0
    by (vm_compute; reflexivity).
  exact (proj1 (get_task_existing id_a
                  (mk_Database (Some "xmas") (inr ["task"]) [doc_a; doc_b])
                  [] (Some "mongodb://x") doc_a Hv Hd0)).
Defined.

Lemma list_tasks_permutation_witness :
  ∃ docs,
    [serialize_task (Some doc_b); serialize_task (Some doc_a)]
    = (λ d, serialize_task (Some d)) <$> docs
    ∧ docs ≡ₚ [doc_a; doc_b].
Proof.
  apply (list_tasks_permutation
           (mk_Database (Some "xmas") (inr ["task"]) [doc_a; doc_b])
           [] (Some "mongodb://x")).
  vm_compute. reflexivity.
Defined.

Lemma list_tasks_reverses_ascending_store_witness :
  (GET_tasks (store [doc_bare; doc_a; doc_b])).1
  = mk_response 200
      (Json ((λ d, serialize_task (Some d)) <$> [doc_b; doc_a; doc_bare])).
Proof.
  apply (list_tasks_reverses_ascending_store
           (mk_Database (Some "xmas") (inr ["task"]) [doc_bare; doc_a; doc_b])
           [] (Some "mongodb://x")).
  - repeat constructor; intros v; vm_compute; intros [= <-]; eauto.
  - repeat constructor; vm_compute; reflexivity.
Defined.

Lemma get_after_mutation_witness :
  (GET_task id_a
     (PATCH_task 300%N id_a (TaskUpdate.mk Unset (Val true) Unset Unset Unset)
        (store [doc_a])).2).1
  = (PATCH_task 300%N id_a (TaskUpdate.mk Unset (Val true) Unset Unset Unset)
       (store [doc_a])).1.
Proof.
  assert (is_valid id_a = true) as Hv by (vm_compute; reflexivity).
  assert (find_one (ObjectId id_a) [doc_a] = Some doc_a) as Hd0
    by (vm_compute; reflexivity).
  exact (proj1 (get_after_mutation 300%N id_a
                  (TaskUpdate.mk Unset (Val true) Unset Unset Unset)
                  (mk_Database (Some "xmas") (inr ["task"]) [doc_a])
                  [] (Some "mongodb://x") doc_a Hv Hd0)).
Defined.

Lemma toggle_task_frame_witness :
  ∃ c1 d1,
    records (POST_toggle 300%N id_a (store [doc_a; doc_b])).2 = Some c1
    ∧ find_one (ObjectId id_a) c1 = Some d1
    ∧ fields d1 !! "notes" = Some (VStr "wrap them")
    ∧ find_one id_b c1 = Some doc_b.
Proof.
  assert (is_valid id_a = true) as Hv by (vm_compute; reflexivity).
  assert (find_one (ObjectId id_a) [doc_a; doc_b] = Some doc_a) as Hd0
    by (vm_compute; reflexivity).
  destruct (toggle_task_frame 300%N id_a
              (mk_Database (Some "xmas") (inr ["task"]) [doc_a; doc_b])
              [] (Some "mongodb://x") doc_a Hv Hd0)
    as (c1 & d1 & Hc & Hd & _ & Hk & Ho & _).
  exists c1, d1. split; [exact Hc|]. split; [exact Hd|]. split.
  - rewrite Hk; [vm_compute; reflexivity | discriminate | discriminate].
  - rewrite Ho; [vm_compute; reflexivity | vm_compute; discriminate].
Defined.

Lemma toggle_task_response_witness :
  json_field (POST_toggle 300250%N id_c (store [doc_bare])).1 "completed"
  = Some (VBool true)
  ∧ json_field (POST_toggle 300250%N id_c (store [doc_bare])).1 "updated_at"
    = Some (VStr "300000").
Proof.
  assert (is_valid id_c = true) as Hv by (vm_compute; reflexivity).
  assert (find_one (ObjectId id_c) [doc_bare] = Some doc_bare) as Hd0
    by (vm_compute; reflexivity).
  destruct (toggle_task_response 300250%N id_c
              (mk_Database (Some "xmas") (inr ["task"]) [doc_bare])
              [] (Some "mongodb://x") doc_bare Hv Hd0)
    as (_ & _ & Hc & Hu).
  split; [exact Hc | exact Hu].
Defined.

Lemma update_task_response_witness :
  json_field
    (PATCH_task 300250%N id_a
       (TaskUpdate.mk Unset Unset Unset (Val 500750%N) Unset)
       (store [doc_a])).1
    "due_date"
  = Some (VStr "500000")
  ∧ json_field
      (PATCH_task 300250%N id_a
         (TaskUpdate.mk Unset Unset Unset (Val 500750%N) Unset)
         (store [doc_a])).1
      "updated_at"
    = Some (VStr "300000").
Proof.
  assert (is_valid id_a = true) as Hv by (vm_compute; reflexivity).
  assert (find_one (ObjectId id_a) [doc_a] = Some doc_a) as Hd0
    by (vm_compute; reflexivity).
  refine (proj2 (update_task_response 300250%N id_a
                   (TaskUpdate.mk Unset Unset Unset (Val 500750%N) Unset)
                   (mk_Database (Some "xmas") (inr ["task"]) [doc_a])
                   [] (Some "mongodb://x") doc_a Hv Hd0)
            "due_date" (VDate 500750%N) _).
  vm_compute. reflexivity.
Defined.

Lemma delete_task_frame_witness :
  ∃ c',
    records (DELETE_task id_a (store [doc_a; doc_b])).2 = Some c'
    ∧ find_one id_b c' = find_one id_b [doc_a; doc_b].
Proof.
  destruct (delete_task_frame id_a
              (mk_Database (Some "xmas") (inr ["task"]) [doc_a; doc_b])
              [] (Some "mongodb://x"))
    as (c' & Hc & _ & _ & Ho).
  exists c'. split; [exact Hc|]. apply Ho. vm_compute. discriminate.
Defined.

Lemma id_routes_keep_unique_ids_witness :
  ∃ c',
    records (DELETE_task id_a (store [doc_a; doc_b])).2 = Some c'
    ∧ unique_ids c'.
Proof.
  apply (id_routes_keep_unique_ids 0%N id_a body_empty
           (mk_Database (Some "xmas") (inr ["task"]) [doc_a; doc_b])
           [] (Some "mongodb://x") (DELETE_task id_a)).
  - unfold id_routes. do 3 right. left.
  - unfold unique_ids. apply (bool_decide_unpack _). vm_compute. exact I.
Defined.

Lemma deleted_task_is_gone_witness :
  (GET_task id_a (DELETE_task id_a (store [doc_a; doc_b])).2).1
  = mk_response 404 (Detail "Task not found").
Proof.
  assert (is_valid id_a = true) as Hv by (vm_compute; reflexivity).
  assert (find_one (ObjectId id_a) [doc_a; doc_b] = Some doc_a) as Hd0
    by (vm_compute; reflexivity).
  refine (proj1 (deleted_task_is_gone id_a
                   (mk_Database (Some "xmas") (inr ["task"]) [doc_a; doc_b])
                   [] (Some "mongodb://x") doc_a Hv Hd0 _)).
  unfold unique_ids. apply (bool_decide_unpack _). vm_compute. exact I.
Defined.

Lemma id_routes_fault_without_db_witness :
  POST_toggle 0%N id_a (mk_World (oid := string) None [] None)
  = (mk_response 500 (Detail "Internal Server Error"),
     mk_World (oid := string) None [] None).
Proof.
  apply (id_routes_fault_without_db 0%N id_a body_empty
           (mk_World (oid := string) None [] None) (POST_toggle 0%N id_a)).
  - unfold id_routes. do 2 right. left.
  - reflexivity.
  - vm_compute. reflexivity.
Defined.

Lemma test_database_report_witness :
  ∃ diag w',
    GET_test (store [doc_a]) = (mk_response 200 (Json diag), w')
    ∧ database diag = "✅ Connected & Working".
Proof.
  destruct (test_database_report (store [doc_a]))
    as (diag & w' & Hr & _ & Hw & _).
  exists diag, w'. split; [exact Hr|].
  apply Hw. eexists _, _. split; reflexivity.
Defined.

Lemma create_task_then_get_witness :
  body (GET_task id_b
          (POST_tasks id_b 250%N (CreateBody.mk "Bake" Unset Unset Unset)
             (store [doc_a])).2).1
  = body (POST_tasks id_b 250%N (CreateBody.mk "Bake" Unset Unset Unset)
            (store [doc_a])).1.
Proof.
  assert (ObjectId (str id_b) = id_b) as Hrt by (vm_compute; reflexivity).
  assert (is_valid (str id_b) = true) as Hv by (vm_compute; reflexivity).
  assert (find_one id_b [doc_a] = None) as Hf by (vm_compute; reflexivity).
  exact (proj2 (proj2 (proj2 (proj2 (proj2
           (create_task_then_get id_b 250%N
              (CreateBody.mk "Bake" Unset Unset Unset)
              (mk_Database (Some "xmas") (inr ["task"]) [doc_a])
              [] (Some "mongodb://x") Hrt Hv Hf)))))).
Defined.
